(** * HorizonOps dashboard: console state machine, log recorder, rolling buffers

    A shallow embedding of the decision logic of three React pages of the
    HorizonOps front end:

    - [Console]        the page [CommandConsole] (3 s tick, anomaly escalation,
                       operator recalibration, prediction request);
    - [KernelLogs]     the page [KernelLogs] (incoming log lines, clear button);
    - [LiveTelemetry]  the page [LiveTelemetry] (2 s poll, 50-point chart
                       buffer, kurtosis indicator);
    - [Parameters]     the default alert thresholds of the page [Parameters];
    - [ParameterEditor] the state and the handlers of the page [Parameters]
                       ([updateParam], [handleSave], [handleReset]).

    Conventions of the embedding.

    - A JavaScript [number] is the rational ([Q]) that is the exact value of
      the double.  Comparisons are exact.  The arithmetic of the console
      ([+], [-], [*], [/]) rounds its exact result to the nearest double,
      ties to even ([Js.round64]), and a decimal literal stands for the double
      nearest to it; results of magnitude [2^1024] or more, which JavaScript
      turns into an infinity, are outside the model (no value of the console
      comes near).  The index [Math.floor(r * length)] of the log view is
      computed on the exact product.
    - Every call of [Math.random()], [new Date()] and [Date.now()] reads the
      environment; the values read are the fields of the environment record
      handed to the operation that makes the calls.
    - A React state cell is a field of a record; a [setX] call is a function
      that replaces the field.  An operation that may raise a JavaScript
      exception runs in the small monad [Js.M] below, whose result is either
      [Normal v] or [Throw e].
    - The [useEffect] of the console re-creates its interval whenever
      [systemStatus] changes, so the value of [systemStatus] a tick reads is
      the current one; one tick is one invocation of the updater passed to
      [setTelemetry].
    - [runAiAnalysis] is one step of the console: after its [await] it reads
      nothing but the response and writes only [aiInsight] and
      [isAiAnalyzing], cells that no other operation touches.
    - [String.prototype.toUpperCase] and the conversion of a number to a
      string in a template literal are built-ins of the host; they are the two
      fields of the class [Js.Runtime]. *)

From Stdlib Require Import QArith Qround Qabs Qpower Lqa ZArith Lia Ascii.
From stdpp Require Import base option list strings pretty.

Local Open Scope string_scope.

(** ** JavaScript values and built-ins used by the pages *)

Module Js.

Inductive js_error := TypeError | NetworkError | SyntaxError.

Inductive completion (A : Type) : Type :=
| Normal (a : A)
| Throw (e : js_error).

Arguments Normal {A} a.
Arguments Throw {A} e.

(** Sequencing of two evaluations, the second of which is skipped when the
    first throws. *)
Definition and_then {A B} (c : completion A) (k : A -> completion B) : completion B :=
  match c with
  | Normal a => k a
  | Throw e => Throw e
  end.

(** [x > y] on numbers. *)
Definition gtb (x y : Q) : bool := negb (Qle_bool x y).

(** *** Binary64 arithmetic *)

Definition pow2 (z : Z) : Q := (2 ^ z)%Q.

(** The integer [k] with [2^k <= x < 2^(k+1)], for a positive [x]. *)
Definition ilog2 (x : Q) : Z :=
  let k := (Z.log2 (Qnum x) - Z.log2 (Zpos (Qden x)))%Z in
  if Qle_bool (pow2 k) x then k else (k - 1)%Z.

(** The integer nearest to [q], the even one of the two when [q] lies half
    way. *)
Definition rne (q : Q) : Z :=
  let f := Qfloor q in
  match Qcompare (q - inject_Z f) (1 # 2) with
  | Lt => f
  | Gt => (f + 1)%Z
  | Eq => if Z.even f then f else (f + 1)%Z
  end.

(** The exponent of the binade of [x], at least that of the smallest normal
    double. *)
Definition expo (x : Q) : Z := Z.max (ilog2 (Qabs x)) (-1022).

(** The distance between neighbouring doubles around [x]: 53 significant
    bits, and the fixed spacing [2^-1074] below [2^-1022]. *)
Definition ulp (x : Q) : Q := pow2 (expo x - 52).

(** The double nearest to [x], ties to even. *)
Definition round64 (x : Q) : Q :=
  if Qeq_bool x 0 then 0%Q else (inject_Z (rne (x / ulp x)) * ulp x)%Q.

Definition fadd (x y : Q) : Q := round64 (x + y).
Definition fsub (x y : Q) : Q := round64 (x - y).
Definition fmul (x y : Q) : Q := round64 (x * y).
Definition fdiv (x y : Q) : Q := round64 (x / y).

Arguments round64 : simpl never.
Arguments fadd : simpl never.
Arguments fsub : simpl never.
Arguments fmul : simpl never.
Arguments fdiv : simpl never.

Fixpoint zeros (n : nat) : string :=
  match n with
  | O => EmptyString
  | S k => String "0"%char (zeros k)
  end.

Definition pad_left (n : nat) (s : string) : string :=
  zeros (n - String.length s) ++ s.

(** [Number.prototype.toFixed(f)] for a number below [10^21] in absolute
    value: the integer [n] with [n / 10^f] nearest to [x] (the larger one on a
    tie), written in decimal with [f] digits after the point. *)
Definition toFixed (f : nat) (x : Q) : string :=
  let neg := gtb 0 x in
  let ax := if neg then Qopp x else x in
  let n := Qfloor (ax * inject_Z (10 ^ Z.of_nat f) + (1 # 2)) in
  let m := pretty (Z.to_N n) in
  let digits :=
    match f with
    | O => m
    | S _ =>
        let m' := pad_left (S f) m in
        let k := String.length m' in
        String.substring 0 (k - f) m' ++ "." ++ String.substring (k - f) f m'
    end in
  (if neg then "-" else EmptyString) ++ digits.

(** The values [JSON.parse] can return. *)
#[local] Unset Elimination Schemes.
Inductive jsval :=
| JNull
| JBool (b : bool)
| JNum (q : Q)
| JStr (s : string)
| JArr (items : list jsval)
| JObj (fields : list (string * jsval)).
#[local] Set Elimination Schemes.

(** Own property of a parsed object; a repeated key keeps its last value. *)
Fixpoint own_property (key : string) (fields : list (string * jsval)) : option jsval :=
  match fields with
  | [] => None
  | (k, v) :: rest =>
      match own_property key rest with
      | Some w => Some w
      | None => if decide (k = key) then Some v else None
      end
  end.

(** [v.key] for one of the keys the console reads ([risk_level],
    [risk_score], [explanation], [recommended_action], [natural_language]):
    reading a property of [null] throws, a primitive or an array has no such
    property ([None] stands for [undefined]). *)
Definition member (v : jsval) (key : string) : completion (option jsval) :=
  match v with
  | JNull => Throw TypeError
  | JObj fields => Normal (own_property key fields)
  | _ => Normal None
  end.

(** Truthiness, as used by [||]. *)
Definition truthy (o : option jsval) : bool :=
  match o with
  | None => false
  | Some JNull => false
  | Some (JBool b) => b
  | Some (JNum q) => negb (Qeq_bool q 0)
  | Some (JStr s) => negb (String.eqb s EmptyString)
  | Some (JArr _) => true
  | Some (JObj _) => true
  end.

(** [prev.slice(-n)]: the last [n] elements, all of them when there are
    fewer. *)
Definition slice_last {A} (n : nat) (prev : list A) : list A :=
  drop (length prev - n) prev.

Fixpoint join (sep : string) (parts : list string) : string :=
  match parts with
  | [] => EmptyString
  | [p] => p
  | p :: rest => p ++ sep ++ join sep rest
  end.

Class Runtime := {
  String_toUpperCase : string -> string;
  Number_toString : Q -> string
}.

Section WithRuntime.
Context `{Runtime}.

(** [ToString] of a parsed value, as performed by a template literal.  An
    object is converted by its [toString] method: a parsed object inherits
    the one of [Object.prototype] unless it has an own key [toString], whose
    parsed value is never a function, and then no conversion exists and a
    [TypeError] is thrown.  An array is converted by [join], which converts
    its elements from left to right, a [null] element to the empty string. *)
Fixpoint ToString (v : jsval) : completion string :=
  match v with
  | JNull => Normal "null"
  | JBool true => Normal "true"
  | JBool false => Normal "false"
  | JNum q => Normal (Number_toString q)
  | JStr s => Normal s
  | JArr items =>
      and_then
        ((fix parts (xs : list jsval) : completion (list string) :=
            match xs with
            | [] => Normal []
            | x :: rest =>
                and_then (match x with
                          | JNull => Normal EmptyString
                          | _ => ToString x
                          end) (fun p =>
                and_then (parts rest) (fun ps => Normal (p :: ps)))
            end) items)
        (fun ps => Normal (join "," ps))
  | JObj fields =>
      match own_property "toString" fields with
      | Some _ => Throw TypeError
      | None => Normal "[object Object]"
      end
  end.

Definition ToString_opt (o : option jsval) : completion string :=
  match o with
  | None => Normal "undefined"
  | Some v => ToString v
  end.

(** [o.toUpperCase()]: only a string has the method. *)
Definition call_toUpperCase (o : option jsval) : completion string :=
  match o with
  | Some (JStr s) => Normal (String_toUpperCase s)
  | _ => Throw TypeError
  end.

End WithRuntime.

(** *** A monad for operations over a store [S] that may throw *)

Definition M (S A : Type) : Type := S -> completion A * S.

Definition ret {S A} (a : A) : M S A := fun s => (Normal a, s).

Definition throw {S A} (e : js_error) : M S A := fun s => (Throw e, s).

Definition bind {S A B} (m : M S A) (k : A -> M S B) : M S B :=
  fun s =>
    match m s with
    | (Normal a, s') => k a s'
    | (Throw e, s') => (Throw e, s')
    end.

Definition lift {S A} (c : completion A) : M S A := fun s => (c, s).

Definition get {S} : M S S := fun s => (Normal s, s).

Definition modify {S} (f : S -> S) : M S unit := fun s => (Normal tt, f s).

(** [try { body } catch (error) { handler } finally { final }] where neither
    the handler nor the final block returns a value. *)
Definition try_catch_finally {S} (body : M S unit) (handler : js_error -> M S unit)
    (final : M S unit) : M S unit :=
  fun s =>
    let '(r, s1) :=
      match body s with
      | (Normal _, s') => (Normal tt, s')
      | (Throw e, s') => handler e s'
      end in
    match final s1 with
    | (Normal _, s2) => (r, s2)
    | (Throw e, s2) => (Throw e, s2)
    end.

End Js.

Import Js.

Declare Scope js_scope.
Delimit Scope js_scope with js.
Notation "x <- m ;; k" := (Js.bind m (fun x => k))
  (at level 100, m at next level, right associativity) : js_scope.
Notation "m ;; k" := (Js.bind m (fun _ => k))
  (at level 100, right associativity) : js_scope.

Local Open Scope js_scope.

(** ** The page [CommandConsole] *)

Module Console.

Definition MACHINE_ID : string := "CNC-ALPHA-921".

Record TelemetryPoint := {
  time : string;
  vibration : Q;
  temp : Q;
  power : Q
}.

Module LogType.
Inductive t := info | warning | critical.
End LogType.

Record LogEntry := {
  id : string;
  timestamp : string;
  message : string;
  type : LogType.t
}.

Inductive SystemStatus := nominal | degraded | critical.

#[export] Instance SystemStatus_eq_dec : EqDecision SystemStatus.
Proof. solve_decision. Defined.

(** The body of [POST /predict]. *)
Record Features := {
  vibration_rms : Q;
  vibration_peak : Q;
  vibration_kurtosis : Q;
  temperature : Q;
  temp_rate_of_change : Q;
  power_consumption : Q;
  power_deviation : Q;
  time_since_maintenance : Q;
  cumulative_cycles : Q
}.

Record PredictRequest := {
  machine_id : string;
  features : Features
}.

(** The five [useState] cells of the component, and the list of requests
    handed to [fetch] so far (most recent first), which is not a cell of the
    component but lets the model count the requests an operation issues. *)
Record state := {
  telemetry : list TelemetryPoint;
  logs : list LogEntry;
  isAiAnalyzing : bool;
  aiInsight : option string;
  systemStatus : SystemStatus;
  requests : list PredictRequest
}.

Definition setTelemetry (v : list TelemetryPoint) (st : state) : state :=
  {| telemetry := v; logs := logs st; isAiAnalyzing := isAiAnalyzing st;
     aiInsight := aiInsight st; systemStatus := systemStatus st;
     requests := requests st |}.

Definition setLogs (v : list LogEntry) (st : state) : state :=
  {| telemetry := telemetry st; logs := v; isAiAnalyzing := isAiAnalyzing st;
     aiInsight := aiInsight st; systemStatus := systemStatus st;
     requests := requests st |}.

Definition setIsAiAnalyzing (v : bool) (st : state) : state :=
  {| telemetry := telemetry st; logs := logs st; isAiAnalyzing := v;
     aiInsight := aiInsight st; systemStatus := systemStatus st;
     requests := requests st |}.

Definition setAiInsight (v : option string) (st : state) : state :=
  {| telemetry := telemetry st; logs := logs st; isAiAnalyzing := isAiAnalyzing st;
     aiInsight := v; systemStatus := systemStatus st;
     requests := requests st |}.

Definition setSystemStatus (v : SystemStatus) (st : state) : state :=
  {| telemetry := telemetry st; logs := logs st; isAiAnalyzing := isAiAnalyzing st;
     aiInsight := aiInsight st; systemStatus := v;
     requests := requests st |}.

Definition record_request (r : PredictRequest) (st : state) : state :=
  {| telemetry := telemetry st; logs := logs st; isAiAnalyzing := isAiAnalyzing st;
     aiInsight := aiInsight st; systemStatus := systemStatus st;
     requests := r :: requests st |}.

(** *** Initial state: [Array.from({ length: 40 }, ...)] *)

Record Seed := {
  seedVibration : Q;
  seedTemp : Q;
  seedPower : Q
}.

Definition seedPoint (seeds : nat -> Seed) (i : nat) : TelemetryPoint :=
  {| time := pretty i ++ ":00";
     vibration := fadd 18 (fmul (seedVibration (seeds i)) 4);
     temp := fadd 42 (fmul (seedTemp (seeds i)) 2);
     power := fadd 11 (fmul (seedPower (seeds i)) 1) |}.

Definition initial (seeds : nat -> Seed) : state :=
  {| telemetry := List.map (seedPoint seeds) (seq 0 40);
     logs := [];
     isAiAnalyzing := false;
     aiInsight := None;
     systemStatus := nominal;
     requests := [] |}.

(** *** The interval callback *)

(** What one tick reads from the environment, in the order of the reads: the
    clock for [nextTime], four [Math.random()] draws, and, when a log line is
    written, the draw behind its [id] and the clock for its [timestamp]. *)
Record TickEnv := {
  nextTime : string;
  rAnomaly : Q;
  rVibration : Q;
  rTemp : Q;
  rPower : Q;
  logId : string;
  logTime : string
}.

Definition isAnomaly (env : TickEnv) : bool := gtb (rAnomaly env) (round64 0.98).

Definition newPoint (env : TickEnv) (last : TelemetryPoint) : TelemetryPoint :=
  {| time := nextTime env;
     vibration :=
       if isAnomaly env then fadd 55 (fmul (rVibration env) 25)
       else fadd 20 (fmul (rVibration env) 4);
     temp := fadd (temp last) (fsub (rTemp env) (round64 0.45));
     power := fadd 12 (fmul (rPower env) 0.5) |}.

Definition addLog (ty : LogType.t) (msg : string) (env : TickEnv) : M state unit :=
  let newEntry := {| id := logId env; timestamp := logTime env; message := msg; type := ty |} in
  modify (fun st => setLogs (take 15 (newEntry :: logs st)) st).

Definition anomalyMessage (p : TelemetryPoint) : string :=
  "Anomaly: Spindle vibration threshold exceeded (" ++ toFixed 1 (vibration p) ++ "Hz)".

(** [prev[prev.length - 1]] is [undefined] on an empty array, and reading
    [last.temp] then throws. *)
Definition lastPoint (prev : list TelemetryPoint) : completion TelemetryPoint :=
  match last prev with
  | Some p => Normal p
  | None => Throw TypeError
  end.

Definition tick (env : TickEnv) : M state unit :=
  st <- get ;;
  let prev := telemetry st in
  last <- lift (lastPoint prev) ;;
  let p := newPoint env last in
  (if isAnomaly env && bool_decide (systemStatus st = nominal)
   then addLog LogType.critical (anomalyMessage p) env ;; modify (setSystemStatus degraded)
   else ret tt) ;;
  modify (setTelemetry (drop 1 prev ++ [p])).

(** The log line a tick writes when it escalates, and the test that makes it
    escalate; both restate parts of [tick] for use in statements. *)
Definition anomalyEntry (env : TickEnv) (last : TelemetryPoint) : LogEntry :=
  {| id := logId env; timestamp := logTime env;
     message := anomalyMessage (newPoint env last); type := LogType.critical |}.

Definition escalates (env : TickEnv) (st : state) : bool :=
  isAnomaly env && bool_decide (systemStatus st = nominal).

(** *** The button [Recalibrate Baseline] *)

Definition recalibrate : M state unit := modify (setSystemStatus nominal).

(** *** The prediction request [runAiAnalysis] *)

(** What the service can answer to one request: the promise of [fetch]
    rejects, or it resolves and [response.json()] either rejects (the body is
    not JSON) or yields the parsed body.  An HTTP error status does not
    reject. *)
Inductive body :=
| NotJson
| Json (data : jsval).

Inductive fetch_result :=
| Rejected
| Responded (b : body).

Definition network := PredictRequest -> fetch_result.

Definition buildRequest (latestTelemetry : TelemetryPoint) (status : SystemStatus) : PredictRequest :=
  {| machine_id := MACHINE_ID;
     features :=
       {| vibration_rms := vibration latestTelemetry;
          vibration_peak := fmul (vibration latestTelemetry) (round64 1.6);
          vibration_kurtosis :=
            if bool_decide (status = degraded) then round64 5.2 else round64 3.2;
          temperature := temp latestTelemetry;
          temp_rate_of_change := round64 0.1;
          power_consumption := power latestTelemetry;
          power_deviation := fmul (fdiv (fsub (power latestTelemetry) 12) 12) 100;
          time_since_maintenance := 280;
          cumulative_cycles := 125000 |} |}.

Definition fetch (net : network) (req : PredictRequest) : M state body :=
  modify (record_request req) ;;
  match net req with
  | Rejected => throw NetworkError
  | Responded b => ret b
  end.

Definition json (b : body) : completion jsval :=
  match b with
  | NotJson => Throw SyntaxError
  | Json data => Normal data
  end.

Definition FALLBACK : string := "AI Uplink Failed. Switching to manual override.".

(** The JavaScript value held by the cell [aiInsight], declared
    [string | null]. *)
Definition insightValue (st : state) : jsval :=
  match aiInsight st with
  | Some text => JStr text
  | None => JNull
  end.

(** Modelled from the spec: the type [PredictionResult], which the sources
    of the console do not declare, is an object with the fields
    [prediction_id], [risk_score], [failure_probability], [risk_level],
    [recommended_action], [confidence] and [explanation]. *)
Definition PredictionResultShaped (v : jsval) : bool :=
  match v with
  | JObj fields =>
      forallb (fun key => match own_property key fields with Some _ => true | None => false end)
        ["prediction_id"; "risk_score"; "failure_probability"; "risk_level";
         "recommended_action"; "confidence"; "explanation"]
  | _ => false
  end.

Section WithRuntime.
Context `{Runtime}.

(** [data.explanation?.natural_language] *)
Definition natural_language (data : jsval) : completion (option jsval) :=
  and_then (member data "explanation") (fun explanation =>
  match explanation with
  | None => Normal None
  | Some JNull => Normal None
  | Some e => member e "natural_language"
  end).

(** The template literal of line 126: each hole is evaluated and converted
    to a string before the next one is evaluated. *)
Definition insightOf (data : jsval) : completion string :=
  and_then (member data "risk_level") (fun risk_level =>
  and_then (call_toUpperCase risk_level) (fun upper =>
  and_then (member data "risk_score") (fun risk_score =>
  and_then (ToString_opt risk_score) (fun score =>
  and_then (natural_language data) (fun nl =>
  and_then (if truthy nl then Normal nl else member data "recommended_action") (fun text =>
  and_then (ToString_opt text) (fun shown =>
  Normal ("Risk Level: " ++ upper ++ " (" ++ score ++ "%). " ++ shown)))))))).

Definition runAiAnalysis (net : network) : M state unit :=
  modify (setIsAiAnalyzing true) ;;
  modify (setAiInsight None) ;;
  try_catch_finally
    (st <- get ;;
     latestTelemetry <- lift (lastPoint (telemetry st)) ;;
     b <- fetch net (buildRequest latestTelemetry (systemStatus st)) ;;
     data <- lift (json b) ;;
     insight <- lift (insightOf data) ;;
     modify (setAiInsight (Some insight)))
    (fun _ => modify (setAiInsight (Some FALLBACK)))
    (modify (setIsAiAnalyzing false)).

(** What the [try] block of [runAiAnalysis] evaluates to, and the requests
    it hands to [fetch]; both restate parts of [runAiAnalysis] for use in
    statements. *)
Definition analysis (net : network) (st : state) : completion string :=
  match last (telemetry st) with
  | None => Throw TypeError
  | Some l =>
      match net (buildRequest l (systemStatus st)) with
      | Rejected => Throw NetworkError
      | Responded b => and_then (json b) insightOf
      end
  end.

Definition issued (st : state) : list PredictRequest :=
  match last (telemetry st) with
  | None => []
  | Some l => [buildRequest l (systemStatus st)]
  end.

(** The string held by [data.risk_level], when [data] is an object whose
    [risk_level] is a string; the template literal of [insightOf] throws in
    every other case. *)
Definition riskLevelOf (data : jsval) : option string :=
  match data with
  | JObj fields =>
      match own_property "risk_level" fields with
      | Some (JStr s) => Some s
      | _ => None
      end
  | _ => None
  end.

(** *** The console as a state machine *)

Inductive Event :=
| Tick (env : TickEnv)
| Recalibrate
| RunAiAnalysis (net : network).

Definition step (e : Event) : M state unit :=
  match e with
  | Tick env => tick env
  | Recalibrate => recalibrate
  | RunAiAnalysis net => runAiAnalysis net
  end.

Fixpoint run (es : list Event) : M state unit :=
  match es with
  | [] => ret tt
  | e :: rest => step e ;; run rest
  end.

(** The points the ticks of a run append to the chart buffer, in order. *)
Fixpoint generated (es : list Event) (st : state) : list TelemetryPoint :=
  match es with
  | [] => []
  | e :: rest =>
      match step e st with
      | (Normal _, st') =>
          match e, last (telemetry st) with
          | Tick env, Some l => newPoint env l :: generated rest st'
          | _, _ => generated rest st'
          end
      | (Throw _, _) => []
      end
  end.

(** States the component can be in. *)
Inductive reachable : state -> Prop :=
| reachable_initial seeds : reachable (initial seeds)
| reachable_step e st st' :
    reachable st -> step e st = (Normal tt, st') -> reachable st'.

End WithRuntime.

(** *** Events and draws of a run *)

Definition isRecalibrate (e : Event) : bool :=
  match e with
  | Recalibrate => true
  | _ => false
  end.

Definition isTick (e : Event) : bool :=
  match e with
  | Tick _ => true
  | _ => false
  end.

(** A value [Math.random()] can return. *)
Definition unitDraw (r : Q) : Prop := (0 <= r)%Q /\ (r < 1)%Q.

Definition unitSeeds (seeds : nat -> Seed) : Prop :=
  forall i,
    unitDraw (seedVibration (seeds i)) /\ unitDraw (seedTemp (seeds i))
    /\ unitDraw (seedPower (seeds i)).

Definition unitDraws (e : Event) : Prop :=
  match e with
  | Tick env => unitDraw (rVibration env) /\ unitDraw (rTemp env) /\ unitDraw (rPower env)
  | _ => True
  end.

(** The values a chart point can take when every draw is one [Math.random()]
    can return: a seed or baseline vibration from 18 to 24 or an anomalous
    one from 55 to 80, and a power from 11 to 12.5, end points included. *)
Definition inChartRange (p : TelemetryPoint) : Prop :=
  (((18 <= vibration p)%Q /\ (vibration p <= 24)%Q)
   \/ ((55 <= vibration p)%Q /\ (vibration p <= 80)%Q))
  /\ (11 <= power p)%Q /\ (power p <= 12.5)%Q.



End Console.

(** ** The page [KernelLogs] *)

Module KernelLogs.

Inductive Level := debug | info | warning | error | critical.

(** A field read from an array at an index outside it is [undefined],
    written [None]. *)
Record LogEntry := {
  id : string;
  timestamp : string;
  level : option Level;
  source : option string;
  message : option string
}.

Definition entry (i t : string) (l : Level) (s m : string) : LogEntry :=
  {| id := i; timestamp := t; level := Some l; source := Some s; message := Some m |}.

(** [MOCK_LOGS]; [ago d] is the ISO string of the clock [d] milliseconds
    before the module is loaded. *)
Definition MOCK_LOGS (ago : Z -> string) : list LogEntry :=
  [ entry "1" (ago 0%Z) info "SYSTEM" "Telemetry ingestion pipeline healthy";
    entry "2" (ago 5000%Z) debug "ML-ENGINE" "Model inference completed in 45ms";
    entry "3" (ago 10000%Z) warning "SENSOR-GW" "CNC-ALPHA-921: Sensor reading delay detected (>100ms)";
    entry "4" (ago 15000%Z) info "API" "Health check passed for all endpoints";
    entry "5" (ago 20000%Z) error "DATABASE" "Connection pool exhausted, scaling up";
    entry "6" (ago 25000%Z) info "SCHEDULER" "Cron job executed: feature_aggregation";
    entry "7" (ago 30000%Z) critical "ALERT" "Anomaly detected on CNC-BETA-102, prediction confidence 0.92";
    entry "8" (ago 35000%Z) info "AUTH" "User session refreshed: operator@horizonops.com";
    entry "9" (ago 40000%Z) debug "CACHE" "Redis cache hit ratio: 94.2%";
    entry "10" (ago 45000%Z) warning "RESOURCE" "Memory usage approaching threshold (82%)" ].

Definition sources : list string :=
  ["SYSTEM"; "ML-ENGINE"; "SENSOR-GW"; "API"; "DATABASE"; "SCHEDULER"; "AUTH"; "CACHE"].

Definition levels : list Level := [debug; info; info; info; warning; error].

Definition messages : list string :=
  [ "Heartbeat check completed";
    "Feature vector computed for CNC-ALPHA-921";
    "WebSocket connection established";
    "Batch prediction completed for 8 machines";
    "Cache invalidation triggered";
    "Metric export to Prometheus successful" ].

(** [xs[Math.floor(r * xs.length)]] *)
Definition pick {A} (xs : list A) (r : Q) : option A :=
  let i := Qfloor (r * inject_Z (Z.of_nat (length xs))) in
  if (i <? 0)%Z then None else xs !! Z.to_nat i.

(** What one firing of the interval reads: the clock twice and three draws. *)
Record Arrival := {
  stamp : string;
  isoTime : string;
  rLevel : Q;
  rSource : Q;
  rMessage : Q
}.

Definition newLog (a : Arrival) : LogEntry :=
  {| id := stamp a;
     timestamp := isoTime a;
     level := pick levels (rLevel a);
     source := pick sources (rSource a);
     message := pick messages (rMessage a) |}.

(** The writes to the cell [logs]: the interval and the trash button. *)
Inductive Event :=
| Arrive (a : Arrival)
| Clear.

Definition step (e : Event) (logs : list LogEntry) : list LogEntry :=
  match e with
  | Arrive a => take 100 (newLog a :: logs)
  | Clear => []
  end.

Definition run (es : list Event) (logs : list LogEntry) : list LogEntry :=
  foldl (fun l e => step e l) logs es.

(** *** The counters and the filter of the view *)

#[export] Instance Level_eq_dec : EqDecision Level.
Proof. solve_decision. Defined.

(** The string a level is at run time. *)
Definition levelName (l : Level) : string :=
  match l with
  | debug => "debug"
  | info => "info"
  | warning => "warning"
  | error => "error"
  | critical => "critical"
  end.

(** [logs.filter(l => l.level === name).length] *)
Definition countLevel (l : Level) (logs : list LogEntry) : nat :=
  length (List.filter (fun e => bool_decide (level e = Some l)) logs).

Module LogCounts.
Record t := {
  all : nat;
  debug : nat;
  info : nat;
  warning : nat;
  error : nat;
  critical : nat
}.
End LogCounts.

Definition logCounts (logs : list LogEntry) : LogCounts.t :=
  {| LogCounts.all := length logs;
     LogCounts.debug := countLevel debug logs;
     LogCounts.info := countLevel info logs;
     LogCounts.warning := countLevel warning logs;
     LogCounts.error := countLevel error logs;
     LogCounts.critical := countLevel critical logs |}.

(** [s.includes(t)] *)
Fixpoint includes (s t : string) : bool :=
  if String.prefix t s then true
  else
    match s with
    | EmptyString => false
    | String _ rest => includes rest t
    end.

(** [xs.filter(keep)] for a callback that may throw. *)
Fixpoint filterM {A} (keep : A -> completion bool) (xs : list A) : completion (list A) :=
  match xs with
  | [] => Normal []
  | x :: rest =>
      and_then (keep x) (fun k =>
      and_then (filterM keep rest) (fun kept =>
      Normal (if k then x :: kept else kept)))
  end.

Section Filtering.
(** [String.prototype.toLowerCase] of the host. *)
Variable toLowerCase : string -> string.

(** [field.toLowerCase()], which throws when the field is [undefined]. *)
Definition lowered (field : option string) : completion string :=
  match field with
  | Some s => Normal (toLowerCase s)
  | None => Throw TypeError
  end.

(** [filter === 'all' || log.level === filter] *)
Definition matchesFilter (filter : string) (log : LogEntry) : bool :=
  bool_decide (filter = "all") || bool_decide (levelName <$> level log = Some filter).

(** [log.message.toLowerCase().includes(q) || log.source.toLowerCase().includes(q)]
    with [q = searchTerm.toLowerCase()]; the second operand is evaluated only
    when the first is false. *)
Definition matchesSearch (searchTerm : string) (log : LogEntry) : completion bool :=
  and_then (lowered (message log)) (fun m =>
  if includes m (toLowerCase searchTerm) then Normal true
  else and_then (lowered (source log)) (fun s =>
       Normal (includes s (toLowerCase searchTerm)))).

Definition filteredLogs (filter searchTerm : string) (logs : list LogEntry)
    : completion (list LogEntry) :=
  filterM (fun log =>
             and_then (matchesSearch searchTerm log) (fun ms =>
             Normal (matchesFilter filter log && ms)))
          logs.

End Filtering.

(** The draws of an arrival are values [Math.random()] can return. *)
Definition unitArrival (e : Event) : Prop :=
  match e with
  | Arrive a =>
      ((0 <= rLevel a)%Q /\ (rLevel a < 1)%Q)
      /\ ((0 <= rSource a)%Q /\ (rSource a < 1)%Q)
      /\ ((0 <= rMessage a)%Q /\ (rMessage a < 1)%Q)
  | Clear => True
  end.

End KernelLogs.

(** ** The page [LiveTelemetry] *)

Module LiveTelemetry.

Record TelemetryReading := {
  timestamp : string;
  vibration_rms : Q;
  vibration_peak : Q;
  vibration_kurtosis : Q;
  temperature : Q;
  power_consumption : Q;
  anomaly_flag : bool
}.

(** An element of [telemetryData]: the object [{ timestamp: now, ...reading }],
    which is the reading itself when the service sent one (its own
    [timestamp] overrides the clock) and carries only the clock otherwise. *)
Inductive ChartPoint :=
| Reading (r : TelemetryReading)
| ClockOnly (now : string).

Record state := {
  telemetryData : list ChartPoint;
  latestReading : option TelemetryReading;
  isLoading : bool
}.

(** Outcome of [GET /telemetry/{id}/latest]: a rejected or unparsable
    response, or a parsed body whose [reading] may be absent. *)
Inductive latest_result :=
| LatestFailed
| Latest (reading : option TelemetryReading).

(** Outcome of [GET /telemetry/{id}?limit=50]; [data.data] may be absent. *)
Inductive history_result :=
| HistoryFailed
| History (data : option (list ChartPoint)).

Definition newPoint (now : string) (reading : option TelemetryReading) : ChartPoint :=
  match reading with
  | Some r => Reading r
  | None => ClockOnly now
  end.

Definition fetchLatest (now : string) (res : latest_result) (st : state) : state :=
  match res with
  | LatestFailed => st
  | Latest reading =>
      {| telemetryData := slice_last 49 (telemetryData st) ++ [newPoint now reading];
         latestReading := reading;
         isLoading := isLoading st |}
  end.

Definition fetchTelemetry (res : history_result) (st : state) : state :=
  match res with
  | HistoryFailed =>
      {| telemetryData := telemetryData st; latestReading := latestReading st;
         isLoading := false |}
  | History data =>
      {| telemetryData := default [] data; latestReading := latestReading st;
         isLoading := false |}
  end.

Fixpoint poll (rs : list (string * latest_result)) (st : state) : state :=
  match rs with
  | [] => st
  | (now, res) :: rest => poll rest (fetchLatest now res st)
  end.

(** The points a sequence of polls appends to the chart buffer. *)
Fixpoint received (rs : list (string * latest_result)) : list ChartPoint :=
  match rs with
  | [] => []
  | (now, LatestFailed) :: rest => received rest
  | (now, Latest reading) :: rest => newPoint now reading :: received rest
  end.

(** The cells before the effect of the first render has run. *)
Definition initial : state :=
  {| telemetryData := []; latestReading := None; isLoading := true |}.

(** What happens on the page: the effect loads the history, on mount and
    after every change of the selected machine, and the interval polls. *)
Inductive Event :=
| Load (res : history_result)
| Poll (now : string) (res : latest_result).

Definition step (e : Event) (st : state) : state :=
  match e with
  | Load res => fetchTelemetry res st
  | Poll now res => fetchLatest now res st
  end.

Fixpoint run (es : list Event) (st : state) : state :=
  match es with
  | [] => st
  | e :: rest => run rest (step e st)
  end.

(** The service honours [limit=50]: a history it returns has at most 50
    points. *)
Definition withinLimit (e : Event) : Prop :=
  match e with
  | Load (History (Some data)) => length data <= 50
  | _ => True
  end.

(** The clock and reading of the last poll of a sequence that succeeded. *)
Fixpoint lastSuccess (rs : list (string * latest_result))
    : option (string * option TelemetryReading) :=
  match rs with
  | [] => None
  | (now, res) :: rest =>
      match lastSuccess rest with
      | Some found => Some found
      | None =>
          match res with
          | Latest reading => Some (now, reading)
          | LatestFailed => None
          end
      end
  end.

(** The kurtosis indicator:
    [latestReading && latestReading.vibration_kurtosis > 4]. *)
Definition kurtosisElevated (latestReading : option TelemetryReading) : bool :=
  match latestReading with
  | Some r => gtb (vibration_kurtosis r) 4
  | None => false
  end.

(** The trend of the two metric cards that compare a value with a constant:
    [latestReading && latestReading.vibration_rms > 25 ? 'up' : 'stable'] and
    the same with [temperature > 50]. *)
Inductive Trend := up | down | stable.

Definition vibrationTrend (latestReading : option TelemetryReading) : Trend :=
  match latestReading with
  | Some r => if gtb (vibration_rms r) 25 then up else stable
  | None => stable
  end.

Definition temperatureTrend (latestReading : option TelemetryReading) : Trend :=
  match latestReading with
  | Some r => if gtb (temperature r) 50 then up else stable
  | None => stable
  end.

Definition kurtosisColour (latestReading : option TelemetryReading) : string :=
  if kurtosisElevated latestReading then "text-red-500" else "text-[#3FB950]".

(** [latestReading?.vibration_kurtosis?.toFixed(2) || '--'] *)
Definition kurtosisText (latestReading : option TelemetryReading) : string :=
  match latestReading with
  | Some r => toFixed 2 (vibration_kurtosis r)
  | None => "--"
  end.

End LiveTelemetry.

(** ** The alert thresholds of the page [Parameters] *)

Module Parameters.

Record ParameterDef := {
  id : string;
  value : Q;
  min : Q;
  max : Q
}.

(** The section [alerts] of [PARAMETER_SECTIONS]. *)
Definition alerts : list ParameterDef :=
  [ {| id := "vib_warn"; value := 30; min := 10; max := 100 |};
    {| id := "vib_crit"; value := 50; min := 20; max := 100 |};
    {| id := "temp_warn"; value := 55; min := 30; max := 80 |};
    {| id := "temp_crit"; value := 65; min := 40; max := 90 |};
    {| id := "kurtosis_thresh"; value := 4.5; min := 3; max := 10 |} ].

Definition threshold (name : string) : option Q :=
  value <$> List.find (fun p => bool_decide (id p = name)) alerts.

End Parameters.

(** ** The page [Parameters]: the editor *)

Module ParameterEditor.

Inductive ParamType := number | text | toggle | select.

(** A [value: any] of a parameter: a number, a string or a boolean. *)
Inductive ParamValue :=
| VNum (q : Q)
| VText (s : string)
| VBool (b : bool).

(** The fields of a parameter; an optional field that is absent is [None]. *)
Record Param := {
  id : string;
  label : string;
  description : string;
  type : ParamType;
  value : ParamValue;
  options : option (list string);
  min : option Q;
  max : option Q;
  unit : option string
}.

(** A section, without its [icon] (a component, which no handler reads). *)
Record ParameterSection := {
  section_id : string;
  title : string;
  params : list Param
}.

Definition numberParam (i l d : string) (v lo hi : Q) (u : string) : Param :=
  {| id := i; label := l; description := d; type := number; value := VNum v;
     options := None; min := Some lo; max := Some hi; unit := Some u |}.

Definition selectParam (i l d v : string) (opts : list string) : Param :=
  {| id := i; label := l; description := d; type := select; value := VText v;
     options := Some opts; min := None; max := None; unit := None |}.

Definition toggleParam (i l d : string) (v : bool) : Param :=
  {| id := i; label := l; description := d; type := toggle; value := VBool v;
     options := None; min := None; max := None; unit := None |}.

Definition PARAMETER_SECTIONS : list ParameterSection :=
  [ {| section_id := "alerts"; title := "Alert Thresholds";
       params :=
         [ numberParam "vib_warn" "Vibration Warning"
             "Threshold for vibration warning alerts" 30 10 100 "mm/s";
           numberParam "vib_crit" "Vibration Critical"
             "Threshold for critical vibration alerts" 50 20 100 "mm/s";
           numberParam "temp_warn" "Temperature Warning"
             "Threshold for temperature warning" 55 30 80 "°C";
           numberParam "temp_crit" "Temperature Critical"
             "Threshold for critical temperature" 65 40 90 "°C";
           numberParam "kurtosis_thresh" "Kurtosis Threshold"
             "Bearing health indicator threshold" 4.5 3 10 EmptyString ] |};
    {| section_id := "model"; title := "ML Model Settings";
       params :=
         [ numberParam "prediction_window" "Prediction Window"
             "Hours ahead for failure prediction" 72 24 168 "hours";
           numberParam "confidence_thresh" "Confidence Threshold"
             "Minimum confidence for alerts" 0.75 0.5 0.99 EmptyString;
           selectParam "model_version" "Model Version" "Active prediction model" "v1.2.0"
             ["v1.0.0"; "v1.1.0"; "v1.2.0"; "v2.0.0-beta"];
           toggleParam "retrain_enabled" "Auto Retrain"
             "Enable automatic model retraining" true ] |};
    {| section_id := "data"; title := "Data Collection";
       params :=
         [ selectParam "sample_rate" "Telemetry Sample Rate"
             "Sensor data collection frequency" "1Hz" ["0.1Hz"; "1Hz"; "10Hz"; "100Hz"];
           numberParam "retention_days" "Data Retention"
             "Days to retain historical data" 90 30 365 "days";
           numberParam "batch_size" "Batch Size" "Records per batch upload"
             1000 100 10000 "records";
           toggleParam "compression" "Data Compression" "Enable telemetry compression" true ] |};
    {| section_id := "security"; title := "Security Settings";
       params :=
         [ numberParam "session_timeout" "Session Timeout" "Auto-logout after inactivity"
             30 5 120 "min";
           toggleParam "mfa_required" "Require MFA" "Enforce multi-factor authentication" true;
           numberParam "api_rate_limit" "API Rate Limit" "Maximum API requests per minute"
             100 10 1000 "/min";
           toggleParam "audit_logging" "Audit Logging" "Log all user actions" true ] |} ].

Record state := {
  sections : list ParameterSection;
  hasChanges : bool;
  activeSection : string
}.

Definition initial : state :=
  {| sections := PARAMETER_SECTIONS; hasChanges := false; activeSection := "alerts" |}.

(** [{ ...param, value }] *)
Definition withValue (v : ParamValue) (param : Param) : Param :=
  {| id := id param; label := label param; description := description param;
     type := type param; value := v; options := options param;
     min := min param; max := max param; unit := unit param |}.

Definition updateSections (sectionId paramId : string) (v : ParamValue)
    (prev : list ParameterSection) : list ParameterSection :=
  List.map (fun section =>
              if bool_decide (section_id section = sectionId)
              then {| section_id := section_id section; title := title section;
                      params := List.map (fun param =>
                                            if bool_decide (id param = paramId)
                                            then withValue v param else param)
                                         (params section) |}
              else section)
           prev.

(** The two callbacks of [updateSections], by name. *)
Definition editParam (paramId : string) (v : ParamValue) (param : Param) : Param :=
  if bool_decide (id param = paramId) then withValue v param else param.

Definition editSection (sectionId paramId : string) (v : ParamValue)
    (section : ParameterSection) : ParameterSection :=
  if bool_decide (section_id section = sectionId)
  then {| section_id := section_id section; title := title section;
          params := List.map (editParam paramId v) (params section) |}
  else section.

Definition updateParam (sectionId paramId : string) (v : ParamValue) (st : state) : state :=
  {| sections := updateSections sectionId paramId v (sections st);
     hasChanges := true;
     activeSection := activeSection st |}.

(** [handleSave] logs the sections and shows an alert; of the state it only
    clears [hasChanges]. *)
Definition handleSave (st : state) : state :=
  {| sections := sections st; hasChanges := false; activeSection := activeSection st |}.

Definition handleReset (st : state) : state :=
  {| sections := PARAMETER_SECTIONS; hasChanges := false;
     activeSection := activeSection st |}.

Definition setActiveSection (s : string) (st : state) : state :=
  {| sections := sections st; hasChanges := hasChanges st; activeSection := s |}.

(** [sections.find(s => s.id === activeSection)] *)
Definition currentSection (st : state) : option ParameterSection :=
  List.find (fun s => bool_decide (section_id s = activeSection st)) (sections st).

Inductive Event :=
| Update (sectionId paramId : string) (v : ParamValue)
| Save
| Reset
| Select (s : string).

Definition step (e : Event) (st : state) : state :=
  match e with
  | Update sectionId paramId v => updateParam sectionId paramId v st
  | Save => handleSave st
  | Reset => handleReset st
  | Select s => setActiveSection s st
  end.

Definition run (es : list Event) (st : state) : state :=
  foldl (fun s e => step e s) st es.

(** The value of the first parameter with the given id in the first section
    with the given id, as the editor displays it. *)
Definition valueOf (secs : list ParameterSection) (sectionId paramId : string)
    : option ParamValue :=
  match List.find (fun s => bool_decide (section_id s = sectionId)) secs with
  | Some section =>
      value <$> List.find (fun param => bool_decide (id param = paramId)) (params section)
  | None => None
  end.

(** Everything of the sections but the values. *)
Definition frame (param : Param)
    : string * string * string * ParamType * option (list string) * option Q * option Q
      * option string :=
  (id param, label param, description param, type param, options param, min param,
   max param, unit param).

Definition shape (secs : list ParameterSection) :=
  List.map (fun s => (section_id s, title s, List.map frame (params s))) secs.

End ParameterEditor.

(** A host whose [toUpperCase] maps the letters [a]-[z] and whose numbers
    print in plain decimal notation; it serves to evaluate the model on
    examples. *)
Module ExampleHost.

Definition upper_ascii (c : ascii) : ascii :=
  let n := nat_of_ascii c in
  if (97 <=? n)%nat && (n <=? 122)%nat then ascii_of_nat (n - 32) else c.

Fixpoint upper (s : string) : string :=
  match s with
  | EmptyString => EmptyString
  | String c r => String (upper_ascii c) (upper r)
  end.

(** A number with at most [fuel + f] decimals is printed with all of them,
    an integer without a point. *)
Fixpoint show_decimal (fuel f : nat) (q : Q) : string :=
  let scaled := (q * inject_Z (10 ^ Z.of_nat f))%Q in
  if Qeq_bool (inject_Z (Qfloor scaled)) scaled then toFixed f q
  else
    match fuel with
    | O => toFixed f q
    | S k => show_decimal k (S f) q
    end.

#[export] Instance host : Runtime :=
  {| String_toUpperCase := upper; Number_toString := show_decimal 20 0 |}.

Definition noSeed : nat -> Console.Seed :=
  fun _ => {| Console.seedVibration := 0; Console.seedTemp := 0; Console.seedPower := 0 |}.

Definition calm : Console.TickEnv :=
  {| Console.nextTime := "10:00:00"; Console.rAnomaly := 0.5; Console.rVibration := 0.25;
     Console.rTemp := 0.45; Console.rPower := 0.5;
     Console.logId := "k3j9x0q1z"; Console.logTime := "10:00" |}.

Definition spike : Console.TickEnv :=
  {| Console.nextTime := "10:00:03"; Console.rAnomaly := 0.99; Console.rVibration := 0.2;
     Console.rTemp := 0.45; Console.rPower := 0.5;
     Console.logId := "a7f3k2m9p"; Console.logTime := "10:00" |}.

(** A tick environment with the given anomaly and vibration draws. *)
Definition withDraws (a v : Q) : Console.TickEnv :=
  {| Console.nextTime := "10:00:00"; Console.rAnomaly := a; Console.rVibration := v;
     Console.rTemp := 0.45; Console.rPower := 0.5;
     Console.logId := "a7f3k2m9p"; Console.logTime := "10:00" |}.

(** The largest value below 1 with 52 fractional bits, a draw
    [Math.random()] can return. *)
Definition nearOne : Q := (1 - pow2 (-52))%Q.

(** The console after one anomalous tick. *)
Definition alarmed : Console.state :=
  snd (Console.tick spike (Console.initial noSeed)).

Definition down : Console.network := fun _ => Console.Rejected.


Definition complete : jsval :=
  JObj [("risk_level", JStr "high"); ("risk_score", JNum 87);
        ("recommended_action", JStr "Stop")].

Definition answers (data : jsval) : Console.network :=
  fun _ => Console.Responded (Console.Json data).

(** The response of [POST /predict] and the error response shown in the API
    description. *)
Definition documented : jsval :=
  JObj [("prediction_id", JStr "pred_abc123");
        ("machine_id", JStr "CNC-ALPHA-921");
        ("timestamp", JStr "2024-07-15T14:32:00Z");
        ("risk_score", JNum 34.2);
        ("failure_probability", JNum 0.291);
        ("risk_level", JStr "medium");
        ("recommended_action",
         JStr "Increase monitoring frequency. Schedule inspection within 7 days.");
        ("confidence", JNum 0.87);
        ("explanation",
         JObj [("feature_contributions",
                JObj [("vibration_kurtosis", JNum 8.2); ("vibration_rms", JNum 6.1);
                      ("temperature", JNum 4.5); ("time_since_maintenance", JNum 12.3);
                      ("power_deviation", JNum 3.1)]);
               ("top_factors",
                JArr [JObj [("feature", JStr "time_since_maintenance");
                            ("contribution", JNum 12.3)];
                      JObj [("feature", JStr "vibration_kurtosis");
                            ("contribution", JNum 8.2)];
                      JObj [("feature", JStr "vibration_rms");
                            ("contribution", JNum 6.1)]]);
               ("natural_language",
                JStr "Extended time since last PM (200 hours) increases probability of undetected wear accumulation.")])].

Definition invalidFeature : jsval :=
  JObj [("error",
         JObj [("code", JStr "INVALID_FEATURE");
               ("message", JStr "vibration_rms must be positive");
               ("details",
                JObj [("field", JStr "vibration_rms"); ("value", JNum (-5));
                      ("constraint", JStr "positive")])])].


Definition onBoundary : LiveTelemetry.TelemetryReading :=
  {| LiveTelemetry.timestamp := "2024-01-01T00:00:00Z";
     LiveTelemetry.vibration_rms := 21;
     LiveTelemetry.vibration_peak := 33.6;
     LiveTelemetry.vibration_kurtosis := 4.0;
     LiveTelemetry.temperature := 45;
     LiveTelemetry.power_consumption := 12;
     LiveTelemetry.anomaly_flag := false |}.

(** The clock of [MOCK_LOGS], and one firing of the interval of the log
    view. *)
Definition ago : Z -> string := fun d => pretty d.

Definition heartbeat : KernelLogs.Arrival :=
  {| KernelLogs.stamp := "1700000000000";
     KernelLogs.isoTime := "2023-11-14T22:13:20.000Z";
     KernelLogs.rLevel := 0.7;
     KernelLogs.rSource := 0.1;
     KernelLogs.rMessage := 0.05 |}.

(** [toLowerCase] on the letters [A]-[Z]. *)
Definition lower_ascii (c : ascii) : ascii :=
  let n := nat_of_ascii c in
  if (65 <=? n)%nat && (n <=? 90)%nat then ascii_of_nat (n + 32) else c.

Fixpoint lower (s : string) : string :=
  match s with
  | EmptyString => EmptyString
  | String c r => String (lower_ascii c) (lower r)
  end.

(** A reading whose kurtosis lies between 4 and the configured 4.5. *)
Definition mild : LiveTelemetry.TelemetryReading :=
  {| LiveTelemetry.timestamp := "2024-01-01T00:00:02Z";
     LiveTelemetry.vibration_rms := 22;
     LiveTelemetry.vibration_peak := 35.2;
     LiveTelemetry.vibration_kurtosis := 4.2;
     LiveTelemetry.temperature := 46;
     LiveTelemetry.power_consumption := 12.1;
     LiveTelemetry.anomaly_flag := false |}.

Definition blank : LiveTelemetry.state :=
  {| LiveTelemetry.telemetryData := [];
     LiveTelemetry.latestReading := None;
     LiveTelemetry.isLoading := false |}.

End ExampleHost.

(** * Properties *)

(** ** Rounding to binary64 is monotone *)

Module Binary64Facts.
Local Open Scope Q_scope.

Lemma pow2_pos z : 0 < pow2 z.
Proof. apply Qpower_0_lt. reflexivity. Qed.

Lemma pow2_add a b : pow2 (a + b) == pow2 a * pow2 b.
Proof. apply Qpower_plus. discriminate. Qed.

Lemma pow2_le a b : (a <= b)%Z -> pow2 a <= pow2 b.
Proof. intros Hab. apply Qpower_le_compat_l; [exact Hab|]. discriminate. Qed.

Lemma pow2_Z a : (0 <= a)%Z -> inject_Z (2 ^ a) == pow2 a.
Proof. intros Ha. apply Zpower_Qpower. exact Ha. Qed.

Lemma pow2_double a : pow2 (a + 1) == 2 * pow2 a.
Proof. rewrite pow2_add. change (pow2 1) with 2. ring. Qed.

Lemma Zlog2_Q n : (0 < n)%Z ->
  pow2 (Z.log2 n) <= inject_Z n /\ inject_Z n < 2 * pow2 (Z.log2 n).
Proof.
  intros Hn. destruct (Z.log2_spec n Hn) as [Hlo Hhi].
  pose proof (Z.log2_nonneg n) as H0.
  rewrite <- pow2_double, <- !pow2_Z by lia.
  split; [rewrite <- Zle_Qle; exact Hlo|rewrite <- Zlt_Qlt; exact Hhi].
Qed.

Lemma ilog2_spec x : 0 < x -> pow2 (ilog2 x) <= x /\ x < pow2 (ilog2 x + 1).
Proof.
  intros Hx. destruct x as [n d].
  assert (Hn : (0 < n)%Z) by (unfold Qlt in Hx; simpl in Hx; lia).
  destruct (Zlog2_Q n Hn) as [Hnlo Hnhi].
  destruct (Zlog2_Q (Zpos d) eq_refl) as [Hdlo Hdhi].
  assert (Hx' : n # d == inject_Z n / inject_Z (Zpos d)) by apply Qmake_Qdiv.
  assert (Hd : 0 < inject_Z (Zpos d)) by reflexivity.
  unfold ilog2. cbn [Qnum Qden].
  set (a := Z.log2 n) in *. set (b := Z.log2 (Zpos d)) in *.
  assert (Ha : pow2 a == pow2 (a - b) * pow2 b)
    by (rewrite <- pow2_add; replace (a - b + b)%Z with a by lia; reflexivity).
  pose proof (pow2_pos (a - b)) as HK. pose proof (pow2_pos b) as HB.
  destruct (Qle_bool (pow2 (a - b)) (n # d)) eqn:Htest.
  - apply Qle_bool_iff in Htest. split; [exact Htest|].
    rewrite pow2_double, Hx'. apply Qlt_shift_div_r; [exact Hd|].
    set (K := pow2 (a - b)) in *. set (B := pow2 b) in *. set (A := pow2 a) in *.
    set (N := inject_Z n) in *. set (D := inject_Z (Zpos d)) in *.
    nra.
  - assert (Hlt : n # d < pow2 (a - b)).
    { apply Qnot_le_lt. intros Hle. apply Qle_bool_iff in Hle. congruence. }
    replace (a - b - 1 + 1)%Z with (a - b)%Z by lia. split; [|exact Hlt].
    assert (Hhalf : pow2 (a - b) == 2 * pow2 (a - b - 1)).
    { rewrite <- pow2_double. replace (a - b - 1 + 1)%Z with (a - b)%Z by lia. reflexivity. }
    rewrite Hx'. apply Qle_shift_div_l; [exact Hd|].
    pose proof (pow2_pos (a - b - 1)) as HK1.
    set (K := pow2 (a - b)) in *. set (K1 := pow2 (a - b - 1)) in *.
    set (B := pow2 b) in *. set (A := pow2 a) in *.
    set (N := inject_Z n) in *. set (D := inject_Z (Zpos d)) in *.
    nra.
Qed.

Lemma ilog2_mono x y : 0 < x -> x <= y -> (ilog2 x <= ilog2 y)%Z.
Proof.
  intros Hx Hxy.
  destruct (ilog2_spec x Hx) as [Hxlo _].
  destruct (ilog2_spec y (Qlt_le_trans _ _ _ Hx Hxy)) as [_ Hyhi].
  destruct (Z_le_gt_dec (ilog2 x) (ilog2 y)) as [Hle|Hgt]; [exact Hle|].
  exfalso. assert (Hp : pow2 (ilog2 y + 1) <= pow2 (ilog2 x)) by (apply pow2_le; lia).
  lra.
Qed.

Lemma rne_bounds q : (Qfloor q <= rne q <= Qfloor q + 1)%Z.
Proof.
  unfold rne. destruct (Qcompare _ _); [destruct (Z.even _)| |]; lia.
Qed.

Lemma rne_int k : rne (inject_Z k) = k.
Proof.
  unfold rne. rewrite Qfloor_Z.
  destruct (Qcompare (inject_Z k - inject_Z k) (1 # 2)) eqn:Hc; [| reflexivity |].
  - apply Qeq_alt in Hc. lra.
  - apply Qgt_alt in Hc. lra.
Qed.

Lemma rne_mono x y : x <= y -> (rne x <= rne y)%Z.
Proof.
  intros Hxy. pose proof (Qfloor_resp_le x y Hxy) as Hf.
  pose proof (rne_bounds x) as Hx. pose proof (rne_bounds y) as Hy.
  destruct (Z.eq_dec (Qfloor x) (Qfloor y)) as [Heq|Hne]; [|lia].
  unfold rne in *. rewrite <- Heq in *.
  destruct (Qcompare (x - inject_Z (Qfloor x)) (1 # 2)) eqn:Hcx;
    destruct (Qcompare (y - inject_Z (Qfloor x)) (1 # 2)) eqn:Hcy;
    try lia.
  - apply Qeq_alt in Hcx. apply Qlt_alt in Hcy. lra.
  - apply Qgt_alt in Hcx. apply Qeq_alt in Hcy. lra.
  - apply Qgt_alt in Hcx. apply Qlt_alt in Hcy. lra.
Qed.

Lemma round64_pos_eq x : 0 < x -> round64 x = inject_Z (rne (x / ulp x)) * ulp x.
Proof.
  intros Hx. unfold round64. destruct (Qeq_bool x 0) eqn:Hz; [|reflexivity].
  apply Qeq_bool_iff in Hz. lra.
Qed.

Lemma ulp_pos x : 0 < ulp x.
Proof. apply pow2_pos. Qed.

Lemma round64_nonneg x : 0 <= x -> 0 <= round64 x.
Proof.
  intros Hx. unfold round64. destruct (Qeq_bool x 0); [lra|].
  apply Qmult_le_0_compat; [|apply Qlt_le_weak, ulp_pos].
  change 0 with (inject_Z 0). rewrite <- Zle_Qle.
  rewrite <- (rne_int 0). apply rne_mono. change (inject_Z 0) with 0.
  apply Qle_shift_div_l; [apply ulp_pos|]. lra.
Qed.

Lemma ulp_expo x : ulp x = pow2 (expo x - 52).
Proof. reflexivity. Qed.

Lemma abs_pos x : 0 < x -> Qabs x == x.
Proof. intros Hx. apply Qabs_pos. lra. Qed.

Lemma round64_upper x : 0 < x -> round64 x <= pow2 (expo x + 1).
Proof.
  intros Hx. rewrite (round64_pos_eq x Hx), ulp_expo.
  assert (Hax : 0 < Qabs x) by (rewrite abs_pos; assumption).
  destruct (ilog2_spec (Qabs x) Hax) as [_ Hhi]. pose proof (abs_pos x Hx) as Habs.
  assert (Hp : pow2 (ilog2 (Qabs x) + 1) <= pow2 (expo x + 1)) by (apply pow2_le; unfold expo; lia).
  assert (Hsplit : pow2 (expo x + 1) == inject_Z (2 ^ 53) * pow2 (expo x - 52)).
  { rewrite pow2_Z by lia. rewrite <- pow2_add. replace (53 + (expo x - 52))%Z with (expo x + 1)%Z by lia. reflexivity. }
  rewrite Hsplit. apply Qmult_le_compat_r; [|apply Qlt_le_weak, pow2_pos].
  rewrite <- Zle_Qle. rewrite <- (rne_int (2 ^ 53)). apply rne_mono.
  apply Qle_shift_div_r; [apply pow2_pos|]. rewrite <- Hsplit. lra.
Qed.

Lemma round64_lower x : 0 < x -> (-1022 <= ilog2 (Qabs x))%Z -> pow2 (expo x) <= round64 x.
Proof.
  intros Hx He. rewrite (round64_pos_eq x Hx), ulp_expo.
  assert (Hax : 0 < Qabs x) by (rewrite abs_pos; assumption).
  destruct (ilog2_spec (Qabs x) Hax) as [Hlo _]. pose proof (abs_pos x Hx) as Habs.
  assert (Hee : expo x = ilog2 (Qabs x)) by (unfold expo; lia).
  assert (Hsplit : pow2 (expo x) == inject_Z (2 ^ 52) * pow2 (expo x - 52)).
  { rewrite pow2_Z by lia. rewrite <- pow2_add. replace (52 + (expo x - 52))%Z with (expo x) by lia. reflexivity. }
  rewrite Hsplit at 1. apply Qmult_le_compat_r; [|apply Qlt_le_weak, pow2_pos].
  rewrite <- Zle_Qle. rewrite <- (rne_int (2 ^ 52)) at 1. apply rne_mono.
  apply Qle_shift_div_l; [apply pow2_pos|]. rewrite <- Hsplit, Hee. lra.
Qed.

Lemma round64_mono_pos x y : 0 < x -> x <= y -> round64 x <= round64 y.
Proof.
  intros Hx Hxy. assert (Hy : 0 < y) by lra.
  assert (Hax : 0 < Qabs x) by (rewrite abs_pos; assumption).
  assert (Haxy : Qabs x <= Qabs y) by (rewrite !abs_pos; assumption).
  pose proof (ilog2_mono _ _ Hax Haxy) as Hlog.
  destruct (Z.eq_dec (expo x) (expo y)) as [Heq|Hne].
  - rewrite (round64_pos_eq x Hx), (round64_pos_eq y Hy), !ulp_expo, Heq.
    apply Qmult_le_compat_r; [|apply Qlt_le_weak, pow2_pos].
    rewrite <- Zle_Qle. apply rne_mono.
    apply Qmult_le_compat_r; [exact Hxy|]. apply Qlt_le_weak, Qinv_lt_0_compat, pow2_pos.
  - assert (Hlt : (expo x < expo y)%Z) by (unfold expo in *; lia).
    apply Qle_trans with (pow2 (expo x + 1)); [apply round64_upper; exact Hx|].
    apply Qle_trans with (pow2 (expo y)); [apply pow2_le; lia|].
    apply round64_lower; [exact Hy|]. unfold expo in *. lia.
Qed.

Lemma round64_mono x y : 0 <= x -> x <= y -> round64 x <= round64 y.
Proof.
  intros Hx Hxy. destruct (Qlt_le_dec 0 x) as [Hpos|Hzero].
  - apply round64_mono_pos; assumption.
  - assert (Hx0 : x == 0) by lra.
    unfold round64 at 1. destruct (Qeq_bool x 0) eqn:Hz.
    + apply round64_nonneg. lra.
    + exfalso. apply Qeq_bool_neq in Hz. contradiction.
Qed.

Lemma round64_between a b x :
  round64 a == a -> round64 b == b -> 0 <= a -> a <= x -> x <= b ->
  a <= round64 x /\ round64 x <= b.
Proof.
  intros Ha Hb H0 Hax Hxb. split.
  - rewrite <- Ha. apply round64_mono; assumption.
  - rewrite <- Hb. apply round64_mono; lra.
Qed.

Lemma rne_comp x y : x == y -> rne x = rne y.
Proof.
  intros Hxy. unfold rne. rewrite (Qfloor_comp x y Hxy).
  assert (Hc : Qcompare (x - inject_Z (Qfloor y)) (1 # 2)
               = Qcompare (y - inject_Z (Qfloor y)) (1 # 2))
    by (apply Qcompare_comp; [rewrite Hxy; reflexivity|reflexivity]).
  rewrite Hc. reflexivity.
Qed.

Ltac compared H :=
  match type of H with
  | Qcompare _ _ = Eq => apply Qeq_alt in H
  | Qcompare _ _ = Lt => apply Qlt_alt in H
  | Qcompare _ _ = Gt => apply Qgt_alt in H
  end.

Lemma rne_opp q : rne (- q) = (- rne q)%Z.
Proof.
  pose proof (Qfloor_le q) as Hf1. pose proof (Qlt_floor q) as Hf2.
  pose proof (Qfloor_le (- q)) as Hg1. pose proof (Qlt_floor (- q)) as Hg2.
  rewrite inject_Z_plus in Hf2, Hg2. change (inject_Z 1) with 1 in Hf2, Hg2.
  assert (Hlo : (Qfloor q <= - Qfloor (- q))%Z).
  { rewrite Zle_Qle, inject_Z_opp. lra. }
  assert (Hhi : (- Qfloor (- q) <= Qfloor q + 1)%Z).
  { assert (Hlt : (- Qfloor (- q) - 1 < Qfloor q + 1)%Z).
    { rewrite Zlt_Qlt. unfold Z.sub. rewrite !inject_Z_plus, !inject_Z_opp.
      change (inject_Z 1) with 1. lra. }
    lia. }
  unfold rne.
  destruct (Z.eq_dec (- Qfloor (- q))%Z (Qfloor q)) as [Hsame|Hdiff].
  - assert (Hg : Qfloor (- q) = (- Qfloor q)%Z) by lia.
    rewrite Hg in *. rewrite inject_Z_opp in Hg1.
    destruct (Qcompare (- q - inject_Z (- Qfloor q)) (1 # 2)) eqn:Hc1;
      destruct (Qcompare (q - inject_Z (Qfloor q)) (1 # 2)) eqn:Hc2;
      rewrite ?inject_Z_opp in Hc1; compared Hc1; compared Hc2;
      try lra; try lia.
  - assert (Hg : Qfloor (- q) = (- Qfloor q - 1)%Z) by lia.
    rewrite Hg in *.
    assert (Hinj : inject_Z (- Qfloor q - 1) == - inject_Z (Qfloor q) - 1).
    { unfold Z.sub. rewrite inject_Z_plus, !inject_Z_opp. reflexivity. }
    assert (Heven : Z.even (- Qfloor q - 1) = negb (Z.even (Qfloor q))).
    { rewrite Z.even_sub, Z.even_opp. simpl. destruct (Z.even (Qfloor q)); reflexivity. }
    rewrite Heven.
    destruct (Qcompare (- q - inject_Z (- Qfloor q - 1)) (1 # 2)) eqn:Hc1;
      destruct (Qcompare (q - inject_Z (Qfloor q)) (1 # 2)) eqn:Hc2;
      compared Hc1; compared Hc2; rewrite ?Hinj in Hc1;
      try lra; try lia.
    destruct (Z.even (Qfloor q)); simpl; lia.
Qed.

Lemma Qabs_opp_eq x : Qabs (- x) = Qabs x.
Proof. destruct x as [n d]. simpl. rewrite Z.abs_opp. reflexivity. Qed.

Lemma round64_opp x : round64 (- x) == - round64 x.
Proof.
  unfold round64, ulp, expo. rewrite Qabs_opp_eq.
  destruct (Qeq_bool x 0) eqn:Hz.
  - apply Qeq_bool_iff in Hz.
    assert (Hz' : Qeq_bool (- x) 0 = true) by (apply Qeq_bool_iff; lra).
    rewrite Hz'. reflexivity.
  - apply Qeq_bool_neq in Hz.
    destruct (Qeq_bool (- x) 0) eqn:Hz'.
    + apply Qeq_bool_iff in Hz'. exfalso. apply Hz. lra.
    + set (u := pow2 _).
      assert (Hdiv : - x / u == - (x / u)) by (unfold Qdiv; ring).
      rewrite (rne_comp _ _ Hdiv), rne_opp, inject_Z_opp. ring.
Qed.

Lemma round64_monotone x y : x <= y -> round64 x <= round64 y.
Proof.
  intros Hxy. destruct (Qlt_le_dec x 0) as [Hx|Hx]; [|apply round64_mono; assumption].
  destruct (Qlt_le_dec 0 y) as [Hy|Hy].
  - pose proof (round64_nonneg (- x) ltac:(lra)) as Hnx.
    pose proof (round64_nonneg y ltac:(lra)) as Hny.
    rewrite round64_opp in Hnx. lra.
  - pose proof (round64_mono (- y) (- x) ltac:(lra) ltac:(lra)) as Hm.
    rewrite !round64_opp in Hm. lra.
Qed.

Lemma round64_nonpos x : x <= 0 -> round64 x <= 0.
Proof.
  intros Hx. apply (round64_monotone x 0) in Hx. exact Hx.
Qed.

Lemma fadd_between a b x y :
  round64 a == a -> round64 b == b -> a <= x + y -> x + y <= b ->
  a <= fadd x y /\ fadd x y <= b.
Proof.
  intros Ha Hb Hlo Hhi. unfold fadd. split.
  - rewrite <- Ha. apply round64_monotone. exact Hlo.
  - rewrite <- Hb. apply round64_monotone. exact Hhi.
Qed.

Lemma fmul_between a b x y :
  round64 a == a -> round64 b == b -> a <= x * y -> x * y <= b ->
  a <= fmul x y /\ fmul x y <= b.
Proof.
  intros Ha Hb Hlo Hhi. unfold fmul. split.
  - rewrite <- Ha. apply round64_monotone. exact Hlo.
  - rewrite <- Hb. apply round64_monotone. exact Hhi.
Qed.

End Binary64Facts.

(** ** Equations of the console operations *)

Module ConsoleFacts.
Import Console.

Section WithRuntime.
Context `{Runtime}.

Lemma tick_unfold env st :
  tick env st =
  match last (telemetry st) with
  | None => (Throw TypeError, st)
  | Some l =>
      (Normal tt,
       setTelemetry (drop 1 (telemetry st) ++ [newPoint env l])
         (if escalates env st
          then setSystemStatus degraded (setLogs (take 15 (anomalyEntry env l :: logs st)) st)
          else st))
  end.
Proof.
  unfold tick, escalates, bind, get, lift, lastPoint.
  destruct (last (telemetry st)) as [l|]; [|reflexivity].
  destruct (isAnomaly env && bool_decide (systemStatus st = nominal)); reflexivity.
Qed.

Lemma runAiAnalysis_unfold net st :
  runAiAnalysis net st =
  (Normal tt,
   {| telemetry := telemetry st; logs := logs st; isAiAnalyzing := false;
      aiInsight := Some (match analysis net st with Normal s => s | Throw _ => FALLBACK end);
      systemStatus := systemStatus st;
      requests := issued st ++ requests st |}).
Proof.
  unfold runAiAnalysis, analysis, issued, try_catch_finally, bind, get, lift, modify,
    lastPoint, fetch, throw, ret; simpl.
  destruct (last (telemetry st)) as [l|]; simpl; [|reflexivity].
  destruct (net (buildRequest l (systemStatus st))) as [|b]; simpl; [reflexivity|].
  destruct b as [|data]; simpl; [reflexivity|].
  destruct (insightOf data); reflexivity.
Qed.

Lemma step_total e st :
  telemetry st <> [] ->
  exists st', step e st = (Normal tt, st') /\ telemetry st' <> [].
Proof.
  intros Hne. destruct e as [env| |net]; simpl.
  - rewrite tick_unfold. destruct (last (telemetry st)) as [l|] eqn:Hl.
    + eexists; split; [reflexivity|]. simpl.
      intros Heq. apply app_eq_nil in Heq as [_ Heq]. discriminate.
    + apply last_None in Hl. contradiction.
  - eexists; split; [reflexivity|]. exact Hne.
  - rewrite runAiAnalysis_unfold. eexists; split; [reflexivity|]. exact Hne.
Qed.

Lemma step_status e st st' :
  step e st = (Normal tt, st') ->
  systemStatus st' =
  match e with
  | Tick env => if escalates env st then degraded else systemStatus st
  | Recalibrate => nominal
  | RunAiAnalysis _ => systemStatus st
  end.
Proof.
  destruct e as [env| |net]; simpl.
  - rewrite tick_unfold. destruct (last (telemetry st)); [|discriminate].
    intros [= <-]. destruct (escalates env st); reflexivity.
  - intros [= <-]. reflexivity.
  - rewrite runAiAnalysis_unfold. intros [= <-]. reflexivity.
Qed.

Lemma run_cons e es st st1 :
  step e st = (Normal tt, st1) -> run (e :: es) st = run es st1.
Proof. intros Hs. simpl. unfold bind. rewrite Hs. reflexivity. Qed.

Lemma run_total es : forall st,
  telemetry st <> [] ->
  exists st', run es st = (Normal tt, st') /\ telemetry st' <> [].
Proof.
  induction es as [|e es IH]; intros st Hne.
  - exists st. split; [reflexivity|assumption].
  - destruct (step_total e st Hne) as (st1 & Hs & Hne1).
    destruct (IH st1 Hne1) as (st' & Hr & Hne').
    exists st'. split; [|assumption]. rewrite (run_cons _ _ _ _ Hs). exact Hr.
Qed.

End WithRuntime.
End ConsoleFacts.

Import Console.
Import ConsoleFacts.

(** ** The status state machine of the console *)

Section StatusMachine.
Context `{Runtime}.

Lemma run_inv e es st st' :
  run (e :: es) st = (Normal tt, st') ->
  exists st1, step e st = (Normal tt, st1) /\ run es st1 = (Normal tt, st').
Proof.
  simpl. unfold bind. destruct (step e st) as [[[]|err] st1]; [|discriminate].
  intros Hr. exists st1. split; [reflexivity|exact Hr].
Qed.

Lemma run_stays_degraded es : forall st st',
  Forall (fun e => e <> Recalibrate) es ->
  systemStatus st = degraded ->
  run es st = (Normal tt, st') ->
  systemStatus st' = degraded.
Proof.
  induction es as [|e es IH]; intros st st' Hes Hd Hr.
  - injection Hr as <-. exact Hd.
  - apply run_inv in Hr as (st1 & Hs & Hr).
    inversion Hes as [|? ? He Hes']; subst.
    apply (IH st1 st' Hes'); [|exact Hr].
    rewrite (step_status _ _ _ Hs).
    destruct e as [env| |net]; [|contradiction|exact Hd].
    unfold escalates. rewrite Hd. rewrite andb_false_r. reflexivity.
Qed.

Lemma only_recalibrate_recovers e st st' :
  step e st = (Normal tt, st') ->
  systemStatus st <> nominal ->
  systemStatus st' = nominal ->
  e = Recalibrate.
Proof.
  intros Hs Hn Hn'. rewrite (step_status _ _ _ Hs) in Hn'.
  destruct e as [env| |net]; [|reflexivity|contradiction].
  destruct (escalates env st); [discriminate|contradiction].
Qed.

(** C1. Once the status of the console is [degraded], every run of events
    that contains no [Recalibrate] (ticks with anomalous or normal readings,
    prediction requests) completes and leaves the status [degraded]; a step
    that takes the status from a value other than [nominal] to [nominal] is
    the [Recalibrate] action; and [Recalibrate] completes from every state
    with status [nominal]. *)
Theorem degraded_until_recalibrate (es : list Event) (st : state) :
  telemetry st <> [] ->
  systemStatus st = degraded ->
  Forall (fun e => e <> Recalibrate) es ->
  (exists st', run es st = (Normal tt, st') /\ systemStatus st' = degraded)
  /\ (forall e s s',
        step e s = (Normal tt, s') ->
        systemStatus s <> nominal -> systemStatus s' = nominal -> e = Recalibrate)
  /\ (forall s, exists s',
        step Recalibrate s = (Normal tt, s') /\ systemStatus s' = nominal).
Proof.
  intros Hne Hd Hes. split; [|split].
  - destruct (run_total es st Hne) as (st' & Hr & _).
    exists st'. split; [exact Hr|]. exact (run_stays_degraded es st st' Hes Hd Hr).
  - exact only_recalibrate_recovers.
  - intros s. eexists. split; reflexivity.
Qed.

(** C2. A tick whose reading is anomalous completes; from status [nominal]
    it moves the status to [degraded] and puts one new entry at the head of
    the log, of type [critical], whose message contains the vibration value
    of the reading just appended to the chart (printed with one decimal);
    from status [degraded] it leaves both the status and the log as they
    were. *)
Theorem anomaly_escalates_once (env : TickEnv) (st : state) (l : TelemetryPoint) :
  last (telemetry st) = Some l ->
  isAnomaly env = true ->
  exists st',
    tick env st = (Normal tt, st')
    /\ last (telemetry st') = Some (newPoint env l)
    /\ (systemStatus st = nominal ->
        systemStatus st' = degraded
        /\ logs st' = take 15 (anomalyEntry env l :: logs st)
        /\ type (anomalyEntry env l) = LogType.critical
        /\ message (anomalyEntry env l) =
             "Anomaly: Spindle vibration threshold exceeded ("
               ++ toFixed 1 (vibration (newPoint env l)) ++ "Hz)")
    /\ (systemStatus st = degraded ->
        systemStatus st' = degraded /\ logs st' = logs st).
Proof.
  intros Hl Ha. rewrite tick_unfold, Hl. eexists. split; [reflexivity|].
  split; [simpl; apply last_snoc|].
  unfold escalates. rewrite Ha.
  split; intros Hs; rewrite Hs; simpl; repeat split; exact Hs.
Qed.

Lemma reachable_status st :
  reachable st -> systemStatus st = nominal \/ systemStatus st = degraded.
Proof.
  induction 1 as [seeds|e st st' Hr IH Hs].
  - left. reflexivity.
  - rewrite (step_status _ _ _ Hs). destruct e as [env| |net].
    + destruct (escalates env st); [right; reflexivity|exact IH].
    + left. reflexivity.
    + exact IH.
Qed.

(** C9. The statuses the console can reach from its initial state by ticks,
    recalibrations and prediction requests are exactly [nominal] and
    [degraded]; [critical] is never reached. *)
Theorem critical_unreachable (s : SystemStatus) :
  (exists st, reachable st /\ systemStatus st = s) <-> (s = nominal \/ s = degraded).
Proof.
  split.
  - intros (st & Hr & <-). exact (reachable_status st Hr).
  - intros [->| ->].
    + exists (initial ExampleHost.noSeed). split; [constructor|reflexivity].
    + exists ExampleHost.alarmed. split; [|reflexivity].
      apply (reachable_step (Tick ExampleHost.spike) (initial ExampleHost.noSeed));
        [constructor|reflexivity].
Qed.

End StatusMachine.

Lemma degraded_until_recalibrate_witness :
  systemStatus ExampleHost.alarmed = degraded
  /\ exists st',
       run (H := ExampleHost.host)
         [Tick ExampleHost.calm; Tick ExampleHost.spike;
          RunAiAnalysis ExampleHost.down; Tick ExampleHost.calm]
         ExampleHost.alarmed = (Normal tt, st')
       /\ systemStatus st' = degraded.
Proof.
  assert (Hne : telemetry ExampleHost.alarmed <> []) by (vm_compute; discriminate).
  assert (Hd : systemStatus ExampleHost.alarmed = degraded) by (vm_compute; reflexivity).
  split; [exact Hd|].
  destruct (degraded_until_recalibrate (H := ExampleHost.host)
              [Tick ExampleHost.calm; Tick ExampleHost.spike;
               RunAiAnalysis ExampleHost.down; Tick ExampleHost.calm]
              ExampleHost.alarmed Hne Hd) as [Hrun _].
  - repeat constructor; discriminate.
  - exact Hrun.
Defined.

Lemma anomaly_escalates_once_witness :
  exists st',
    tick ExampleHost.spike (initial ExampleHost.noSeed) = (Normal tt, st')
    /\ systemStatus st' = degraded
    /\ List.map message (logs st') =
         ["Anomaly: Spindle vibration threshold exceeded (60.0Hz)"].
Proof.
  destruct (anomaly_escalates_once ExampleHost.spike (initial ExampleHost.noSeed)
              (seedPoint ExampleHost.noSeed 39) eq_refl eq_refl)
    as (st' & Ht & _ & Hn & _).
  destruct (Hn eq_refl) as (Hs & Hlog & _ & _).
  exists st'. split; [exact Ht|]. split; [exact Hs|].
  rewrite Hlog. reflexivity.
Defined.

(** ** The log recorder: [[newEntry, ...prev].slice(0, cap)] *)

Section Recorder.
Context {A : Type}.

Lemma head_truncate (cap : nat) (e : A) (l : list A) :
  take (S cap) (e :: l) = e :: take cap l.
Proof. reflexivity. Qed.

Lemma truncate_length (cap : nat) (l : list A) : length (take cap l) <= cap.
Proof. rewrite length_take. lia. Qed.

Lemma truncate_drops_tail (cap : nat) (l : list A) : (take cap l ++ drop cap l)%list = l.
Proof. apply take_drop. Qed.

End Recorder.

Lemma console_logs_step `{Runtime} e st :
  logs (snd (step e st)) = logs st
  \/ exists entry, logs (snd (step e st)) = entry :: take 14 (logs st).
Proof.
  destruct e as [env| |net]; simpl.
  - rewrite tick_unfold. destruct (last (telemetry st)) as [l|]; [|left; reflexivity].
    simpl. destruct (escalates env st); [right|left; reflexivity].
    exists (anomalyEntry env l). reflexivity.
  - left. reflexivity.
  - rewrite runAiAnalysis_unfold. left. reflexivity.
Qed.

Lemma console_logs_bounded `{Runtime} st : reachable st -> length (logs st) <= 15.
Proof.
  induction 1 as [seeds|e st st' Hr IH Hs].
  - simpl. lia.
  - destruct (console_logs_step e st) as [Heq|[entry Heq]];
      rewrite Hs in Heq; simpl in Heq; rewrite Heq; [exact IH|].
    simpl. rewrite length_take. lia.
Qed.

Lemma kernel_logs_bounded es : forall l,
  length l <= 100 -> length (KernelLogs.run es l) <= 100.
Proof.
  unfold KernelLogs.run.
  induction es as [|e es IH]; intros l Hl; simpl; [exact Hl|].
  apply IH. destruct e as [a|]; simpl; [|lia].
  rewrite length_take. lia.
Qed.

(** C3. Appending an entry [e] to a log [l] yields [e] followed by [l], cut
    to the first 15 entries in the console and to the first 100 in the full
    log view.  Hence the new entry is at the head, the entries after it are
    the first 14 (99) entries of [l] in their order, what is cut off is the
    tail of [e :: l] (the oldest entries), and the log never holds more than
    15 (100) entries, in every state either page can reach. *)
Theorem log_append_truncates :
  (forall ty msg env st,
     let e := {| id := logId env; timestamp := logTime env; message := msg; type := ty |} in
     fst (addLog ty msg env st) = Normal tt
     /\ logs (snd (addLog ty msg env st)) = take 15 (e :: logs st)
     /\ logs (snd (addLog ty msg env st)) = e :: take 14 (logs st)
     /\ (logs (snd (addLog ty msg env st)) ++ drop 15 (e :: logs st))%list = e :: logs st
     /\ length (logs (snd (addLog ty msg env st))) <= 15)
  /\ (forall a l,
       KernelLogs.step (KernelLogs.Arrive a) l = take 100 (KernelLogs.newLog a :: l)
       /\ KernelLogs.step (KernelLogs.Arrive a) l = KernelLogs.newLog a :: take 99 l
       /\ (KernelLogs.step (KernelLogs.Arrive a) l ++ drop 100 (KernelLogs.newLog a :: l))%list
          = KernelLogs.newLog a :: l
       /\ length (KernelLogs.step (KernelLogs.Arrive a) l) <= 100)
  /\ (forall (H : Runtime) st, reachable st -> length (logs st) <= 15)
  /\ (forall ago es, length (KernelLogs.run es (KernelLogs.MOCK_LOGS ago)) <= 100).
Proof.
  split; [|split; [|split]].
  - intros ty msg env st e. repeat split.
    + apply (truncate_drops_tail 15 (e :: logs st)).
    + apply (truncate_length 15 (e :: logs st)).
  - intros a l. repeat split.
    + apply (truncate_drops_tail 100 (KernelLogs.newLog a :: l)).
    + apply (truncate_length 100 (KernelLogs.newLog a :: l)).
  - intros H st. apply console_logs_bounded.
  - intros ago es. apply kernel_logs_bounded. simpl. lia.
Qed.

(** C7 fails in the full log view: the trash button empties a log of ten
    entries, which is below the capacity of 100 and is not the result of
    putting an entry at the head. *)
Lemma clear_removes_entries :
  KernelLogs.step KernelLogs.Clear (KernelLogs.MOCK_LOGS (fun d => pretty d)) = []
  /\ length (KernelLogs.MOCK_LOGS (fun d => pretty d)) = 10%nat
  /\ (forall e, take 100 (e :: KernelLogs.MOCK_LOGS (fun d => pretty d)) <> []).
Proof. repeat split. intros e. discriminate. Qed.

(** C7, amended. Every operation of the console leaves its log as it was or
    puts one entry at the head and keeps the first 14 entries of the old log;
    every write to the log of the full log view either puts one entry at the
    head and keeps the first 99 entries of the old log, or is the trash
    button, which empties the log.  In each case the entries kept are those
    of the old log, unchanged and in the same order. *)
Theorem log_writes :
  (forall (H : Runtime) e st,
     logs (snd (step e st)) = logs st
     \/ exists entry, logs (snd (step e st)) = entry :: take 14 (logs st))
  /\ (forall e l,
       (e = KernelLogs.Clear /\ KernelLogs.step e l = [])
       \/ exists a, e = KernelLogs.Arrive a
                    /\ KernelLogs.step e l = KernelLogs.newLog a :: take 99 l).
Proof.
  split.
  - intros H e st. apply console_logs_step.
  - intros [a|] l; [right; exists a|left]; split; reflexivity.
Qed.

(** ** The rolling chart buffers *)

Section SliceLast.
Context {A : Type}.

Lemma slice_last_length (n : nat) (l : list A) : length (slice_last n l) <= n.
Proof. unfold slice_last. rewrite length_drop. lia. Qed.

Lemma slice_last_short (n : nat) (l : list A) : length l <= n -> slice_last n l = l.
Proof.
  intros Hl. unfold slice_last. replace (length l - n)%nat with 0%nat by lia.
  reflexivity.
Qed.

Lemma slice_last_snoc (n : nat) (l : list A) (p : A) :
  (slice_last n l ++ [p])%list = slice_last (S n) (l ++ [p]).
Proof.
  unfold slice_last. rewrite length_app. simpl.
  replace (length l + 1 - S n)%nat with (length l - n)%nat by lia.
  rewrite drop_app_le by lia. reflexivity.
Qed.

Lemma slice_last_app_long (n : nat) (a b : list A) :
  n <= length b -> slice_last n (a ++ b) = slice_last n b.
Proof.
  intros Hn. unfold slice_last. rewrite length_app.
  rewrite drop_app_ge by lia. f_equal. lia.
Qed.

Lemma slice_last_absorb (n : nat) (l m : list A) :
  slice_last n (slice_last n l ++ m) = slice_last n (l ++ m).
Proof.
  destruct (decide (length l <= n)) as [Hle|Hgt].
  - rewrite (slice_last_short n l Hle). reflexivity.
  - rewrite <- (take_drop (length l - n) l) at 2.
    rewrite <- app_assoc.
    rewrite (slice_last_app_long n (take (length l - n) l)); [reflexivity|].
    rewrite length_app, length_drop. lia.
Qed.

End SliceLast.

Lemma poll_buffer rs : forall st,
  LiveTelemetry.telemetryData (LiveTelemetry.poll rs st) =
  match LiveTelemetry.received rs with
  | [] => LiveTelemetry.telemetryData st
  | _ :: _ =>
      slice_last 50 (LiveTelemetry.telemetryData st ++ LiveTelemetry.received rs)
  end.
Proof.
  induction rs as [|[now res] rs IH]; intros st; simpl; [reflexivity|].
  rewrite IH. destruct res as [|reading]; simpl; [reflexivity|].
  rewrite slice_last_snoc.
  destruct (LiveTelemetry.received rs) as [|q qs]; [reflexivity|].
  rewrite slice_last_absorb, <- app_assoc. reflexivity.
Qed.

Lemma console_buffer `{Runtime} es : forall st st',
  run es st = (Normal tt, st') ->
  telemetry st' = drop (length (generated es st)) (telemetry st ++ generated es st).
Proof.
  induction es as [|e es IH]; intros st st' Hr.
  - injection Hr as <-. simpl. rewrite app_nil_r. reflexivity.
  - apply run_inv in Hr as (st1 & Hs & Hr).
    specialize (IH st1 st' Hr). rewrite IH. cbn [generated]. rewrite Hs.
    destruct e as [env| |net]; simpl in Hs.
    + rewrite tick_unfold in Hs.
      destruct (last (telemetry st)) as [l|] eqn:Hl; [|discriminate].
      injection Hs as <-. cbn [telemetry setTelemetry length].
      destruct (telemetry st) as [|x t]; [discriminate|].
      simpl. rewrite drop_0, <- app_assoc. reflexivity.
    + injection Hs as <-. reflexivity.
    + rewrite runAiAnalysis_unfold in Hs. injection Hs as <-. reflexivity.
Qed.

Lemma fetchLatest_bounded now reading lt :
  length (LiveTelemetry.telemetryData
            (LiveTelemetry.fetchLatest now (LiveTelemetry.Latest reading) lt)) <= 50.
Proof.
  simpl. rewrite length_app. pose proof (slice_last_length 49 (LiveTelemetry.telemetryData lt)).
  simpl. lia.
Qed.

Lemma page_bounded es : forall st,
  Forall LiveTelemetry.withinLimit es ->
  length (LiveTelemetry.telemetryData st) <= 50 ->
  length (LiveTelemetry.telemetryData (LiveTelemetry.run es st)) <= 50.
Proof.
  induction es as [|e es IH]; intros st Hes Hst; [exact Hst|].
  inversion Hes as [|? ? He Hes']; subst. simpl. apply IH; [exact Hes'|].
  destruct e as [[|[data|]]|now [|reading]]; simpl in *; try assumption; try lia.
  apply (fetchLatest_bounded now reading st).
Qed.

(** C4. The live-telemetry buffer can hold more than 50 points: the history
    load stores what the service returns without cutting it, so a history of
    60 points leaves 60 in the buffer, and they stay while polls fail; the
    first successful poll brings the buffer back to 50. *)
Lemma history_exceeds_capacity :
  length (LiveTelemetry.telemetryData
            (LiveTelemetry.run
               [LiveTelemetry.Load
                  (LiveTelemetry.History
                     (Some (replicate 60 (LiveTelemetry.Reading ExampleHost.onBoundary))));
                LiveTelemetry.Poll "10:00:02" LiveTelemetry.LatestFailed]
               LiveTelemetry.initial)) = 60%nat
  /\ 50 < length (LiveTelemetry.telemetryData
                    (LiveTelemetry.run
                       [LiveTelemetry.Load
                          (LiveTelemetry.History
                             (Some (replicate 60
                                      (LiveTelemetry.Reading ExampleHost.onBoundary))));
                        LiveTelemetry.Poll "10:00:02" LiveTelemetry.LatestFailed]
                       LiveTelemetry.initial))
  /\ length (LiveTelemetry.telemetryData
               (LiveTelemetry.run
                  [LiveTelemetry.Load
                     (LiveTelemetry.History
                        (Some (replicate 60 (LiveTelemetry.Reading ExampleHost.onBoundary))));
                   LiveTelemetry.Poll "10:00:02" LiveTelemetry.LatestFailed;
                   LiveTelemetry.Poll "10:00:04"
                     (LiveTelemetry.Latest (Some ExampleHost.mild))]
                  LiveTelemetry.initial)) = 50%nat.
Proof. vm_compute. repeat split; lia. Qed.

(** C4, amended. The chart buffer of the console holds 40 points in every
    state of a run that starts with 40 points; after the run it is the old
    buffer followed by the generated points, without its first [n] points,
    [n] being the number of generated points; with 40 or more generated
    points it is exactly the last 40 of them, in the order they were
    generated.  The live-telemetry buffer holds at most 50 points after
    every successful poll, whatever it held before: it is then the last 50
    points of the old buffer followed by the received points, and with 50 or
    more received points exactly the last 50 of them, in order of arrival.
    The point a poll appends is the reading received, or the clock alone
    when the answer carries no reading.  A history load replaces the buffer
    by the answer of the service, uncut; the buffer stays within 50 in every
    state of the page when no loaded history is longer than 50 points, and
    through any polls when it held at most 50 before. *)
Theorem rolling_buffers `{Runtime} (es : list Event) (st : state)
    (rs : list (string * LiveTelemetry.latest_result)) (lt : LiveTelemetry.state)
    (page : list LiveTelemetry.Event) :
  length (telemetry st) = 40%nat ->
  Forall LiveTelemetry.withinLimit page ->
  (exists st',
      run es st = (Normal tt, st')
      /\ length (telemetry st') = 40%nat
      /\ telemetry st' = drop (length (generated es st)) (telemetry st ++ generated es st)
      /\ (40 <= length (generated es st) ->
          telemetry st' = slice_last 40 (generated es st)))
  /\ (forall now reading,
        length (LiveTelemetry.telemetryData
                  (LiveTelemetry.fetchLatest now (LiveTelemetry.Latest reading) lt)) <= 50
        /\ LiveTelemetry.telemetryData
             (LiveTelemetry.fetchLatest now (LiveTelemetry.Latest reading) lt)
           = slice_last 50 (LiveTelemetry.telemetryData lt
                              ++ [LiveTelemetry.newPoint now reading]))
  /\ (forall now r, LiveTelemetry.newPoint now (Some r) = LiveTelemetry.Reading r)
  /\ (forall now, LiveTelemetry.newPoint now None = LiveTelemetry.ClockOnly now)
  /\ (LiveTelemetry.received rs <> [] ->
      length (LiveTelemetry.telemetryData (LiveTelemetry.poll rs lt)) <= 50
      /\ LiveTelemetry.telemetryData (LiveTelemetry.poll rs lt) =
           slice_last 50 (LiveTelemetry.telemetryData lt ++ LiveTelemetry.received rs))
  /\ (LiveTelemetry.received rs = [] ->
      LiveTelemetry.telemetryData (LiveTelemetry.poll rs lt) = LiveTelemetry.telemetryData lt)
  /\ (50 <= length (LiveTelemetry.received rs) ->
      LiveTelemetry.telemetryData (LiveTelemetry.poll rs lt) =
        slice_last 50 (LiveTelemetry.received rs))
  /\ (length (LiveTelemetry.telemetryData lt) <= 50 ->
      length (LiveTelemetry.telemetryData (LiveTelemetry.poll rs lt)) <= 50)
  /\ (forall data,
        LiveTelemetry.telemetryData
          (LiveTelemetry.fetchTelemetry (LiveTelemetry.History (Some data)) lt) = data)
  /\ length (LiveTelemetry.telemetryData (LiveTelemetry.run page LiveTelemetry.initial)) <= 50.
Proof.
  intros H40 Hpage.
  pose proof (poll_buffer rs lt) as Hpoll.
  split; [|split; [|split; [|split; [|split; [|split; [|split; [|split; [|split]]]]]]]].
  - assert (Hne : telemetry st <> []) by (intros Heq; rewrite Heq in H40; discriminate).
    destruct (run_total es st Hne) as (st' & Hr & _).
    exists st'. split; [exact Hr|].
    pose proof (console_buffer es st st' Hr) as Hbuf.
    split; [|split; [exact Hbuf|]].
    + rewrite Hbuf, length_drop, length_app. lia.
    + intros Hlong. rewrite Hbuf. rewrite drop_app_ge by lia.
      unfold slice_last. f_equal. lia.
  - intros now reading. split; [apply fetchLatest_bounded|].
    simpl. rewrite slice_last_snoc. reflexivity.
  - reflexivity.
  - reflexivity.
  - intros Hsome. rewrite Hpoll.
    destruct (LiveTelemetry.received rs) as [|q qs]; [contradiction|].
    split; [apply slice_last_length|reflexivity].
  - intros Hnone. rewrite Hpoll, Hnone. reflexivity.
  - intros Hlong. rewrite Hpoll.
    destruct (LiveTelemetry.received rs) as [|q qs] eqn:Hrs; [simpl in Hlong; lia|].
    apply slice_last_app_long. exact Hlong.
  - intros H50. rewrite Hpoll.
    destruct (LiveTelemetry.received rs) as [|q qs]; [exact H50|apply slice_last_length].
  - reflexivity.
  - apply page_bounded; [exact Hpage|simpl; lia].
Qed.

Lemma rolling_buffers_witness :
  (exists st',
      run (H := ExampleHost.host) [Tick ExampleHost.calm; Tick ExampleHost.spike]
        (initial ExampleHost.noSeed) = (Normal tt, st')
      /\ length (telemetry st') = 40%nat)
  /\ length (LiveTelemetry.telemetryData
               (LiveTelemetry.run
                  [LiveTelemetry.Load (LiveTelemetry.History None);
                   LiveTelemetry.Poll "10:00:00"
                     (LiveTelemetry.Latest (Some ExampleHost.onBoundary));
                   LiveTelemetry.Poll "10:00:02" LiveTelemetry.LatestFailed;
                   LiveTelemetry.Load
                     (LiveTelemetry.History
                        (Some [LiveTelemetry.Reading ExampleHost.mild]));
                   LiveTelemetry.Poll "10:00:04" (LiveTelemetry.Latest None)]
                  LiveTelemetry.initial)) <= 50.
Proof.
  destruct (rolling_buffers (H := ExampleHost.host)
              [Tick ExampleHost.calm; Tick ExampleHost.spike]
              (initial ExampleHost.noSeed)
              [("10:00:00", LiveTelemetry.Latest (Some ExampleHost.onBoundary));
               ("10:00:02", LiveTelemetry.LatestFailed);
               ("10:00:04", LiveTelemetry.Latest None)]
              ExampleHost.blank
              [LiveTelemetry.Load (LiveTelemetry.History None);
               LiveTelemetry.Poll "10:00:00"
                 (LiveTelemetry.Latest (Some ExampleHost.onBoundary));
               LiveTelemetry.Poll "10:00:02" LiveTelemetry.LatestFailed;
               LiveTelemetry.Load
                 (LiveTelemetry.History (Some [LiveTelemetry.Reading ExampleHost.mild]));
               LiveTelemetry.Poll "10:00:04" (LiveTelemetry.Latest None)]
              eq_refl)
    as ((st' & Hr & Hlen & _) & _ & _ & _ & _ & _ & _ & _ & _ & Hpage).
  - repeat constructor; simpl; lia.
  - split; [exists st'; split; [exact Hr|exact Hlen]|exact Hpage].
Defined.

(** ** The prediction request *)

Section Prediction.
Context `{Runtime}.

Lemma analysis_total net st : fst (runAiAnalysis net st) = Normal tt.
Proof. rewrite runAiAnalysis_unfold. reflexivity. Qed.

Lemma issued_at_most_once net st :
  length (requests (snd (runAiAnalysis net st))) <= S (length (requests st)).
Proof.
  rewrite runAiAnalysis_unfold. simpl. unfold issued.
  destruct (last (telemetry st)); simpl; lia.
Qed.

Lemma insightOf_throws data : riskLevelOf data = None -> insightOf data = Throw TypeError.
Proof.
  unfold riskLevelOf, insightOf. destruct data as [| | | | |fields]; try reflexivity.
  simpl. destruct (own_property "risk_level" fields) as [[]|]; try reflexivity.
  discriminate.
Qed.

(** The template literal on an object whose [risk_level] is a string. *)
Lemma insightOf_object fields s :
  own_property "risk_level" fields = Some (JStr s) ->
  insightOf (JObj fields) =
  and_then (ToString_opt (own_property "risk_score" fields)) (fun score =>
  and_then (natural_language (JObj fields)) (fun nl =>
  and_then (if truthy nl then Normal nl
            else Normal (own_property "recommended_action" fields)) (fun text =>
  and_then (ToString_opt text) (fun shown =>
  Normal ("Risk Level: " ++ String_toUpperCase s ++ " (" ++ score ++ "%). " ++ shown))))).
Proof. intros Hrl. unfold insightOf. cbn [member and_then]. rewrite Hrl. reflexivity. Qed.




(** C5, amended. When the request fails (the promise of [fetch] rejects, the
    body is not JSON, or the parsed body makes the template literal throw, as
    every object without [risk_level] does), the operation completes
    normally, the cell [aiInsight] holds the fixed text [FALLBACK] as a plain
    string, the busy flag is cleared, exactly one request has been issued,
    and nothing else of the state changes.  For every answer of the service
    and every state the operation completes normally and issues at most one
    request, and the value of the cell is [null] or a string, never an
    object of the shape of a prediction result. *)
Theorem failed_request_falls_back (net : network) (st : state) (l : TelemetryPoint) :
  last (telemetry st) = Some l ->
  net (buildRequest l (systemStatus st)) = Rejected
  \/ net (buildRequest l (systemStatus st)) = Responded NotJson
  \/ (exists data e,
        net (buildRequest l (systemStatus st)) = Responded (Json data)
        /\ insightOf data = Throw e) ->
  (exists st',
      runAiAnalysis net st = (Normal tt, st')
      /\ aiInsight st' = Some "AI Uplink Failed. Switching to manual override."
      /\ insightValue st' = JStr "AI Uplink Failed. Switching to manual override."
      /\ isAiAnalyzing st' = false
      /\ requests st' = buildRequest l (systemStatus st) :: requests st
      /\ telemetry st' = telemetry st
      /\ logs st' = logs st
      /\ systemStatus st' = systemStatus st)
  /\ (forall net0 st0,
        fst (runAiAnalysis net0 st0) = Normal tt
        /\ length (requests (snd (runAiAnalysis net0 st0))) <= S (length (requests st0))
        /\ PredictionResultShaped (insightValue (snd (runAiAnalysis net0 st0))) = false)
  /\ (forall fields,
        own_property "risk_level" fields = None ->
        insightOf (JObj fields) = Throw TypeError).
Proof.
  intros Hl Hfail. split; [|split].
  - rewrite runAiAnalysis_unfold. eexists. split; [reflexivity|]. simpl.
    unfold analysis, issued, insightValue. simpl. rewrite Hl.
    destruct Hfail as [-> | [-> | (data & e & -> & Hthrow)]]; simpl;
      rewrite ?Hthrow; repeat split.
  - intros net0 st0. split; [apply analysis_total|]. split; [apply issued_at_most_once|].
    rewrite runAiAnalysis_unfold. unfold insightValue. simpl.
    destruct (analysis net0 st0); reflexivity.
  - intros fields Hnone. apply insightOf_throws. simpl. rewrite Hnone. reflexivity.
Qed.


End Prediction.

Lemma failed_request_falls_back_witness :
  exists st',
    runAiAnalysis (H := ExampleHost.host) (ExampleHost.answers ExampleHost.invalidFeature)
      (initial ExampleHost.noSeed)
      = (Normal tt, st')
    /\ aiInsight st' = Some "AI Uplink Failed. Switching to manual override."
    /\ length (requests st') = 1%nat.
Proof.
  destruct (failed_request_falls_back (H := ExampleHost.host)
              (ExampleHost.answers ExampleHost.invalidFeature)
              (initial ExampleHost.noSeed) (seedPoint ExampleHost.noSeed 39) eq_refl)
    as ((st' & Hr & Hi & _ & _ & Hq & _) & _).
  - right. right. exists ExampleHost.invalidFeature, TypeError. split; reflexivity.
  - exists st'. split; [exact Hr|]. split; [exact Hi|]. rewrite Hq. reflexivity.
Defined.

(** C5 fails: after a failed request the insight cell holds the fallback
    text as a bare string, which has none of the fields of a prediction
    result; the response shown in the API description has them all. *)
Lemma fallback_is_bare_string :
  insightValue (snd (runAiAnalysis (H := ExampleHost.host) ExampleHost.down
                       (initial ExampleHost.noSeed)))
  = JStr "AI Uplink Failed. Switching to manual override."
  /\ PredictionResultShaped
       (insightValue (snd (runAiAnalysis (H := ExampleHost.host) ExampleHost.down
                             (initial ExampleHost.noSeed)))) = false
  /\ PredictionResultShaped ExampleHost.documented = true.
Proof. split; [|split]; reflexivity. Qed.



(** ** The kurtosis indicator of the live-telemetry page *)

Lemma gtb_lt (x y : Q) : gtb x y = true <-> (y < x)%Q.
Proof.
  unfold gtb. rewrite negb_true_iff. split.
  - intros Hb. apply Qnot_le_lt. intros Hle.
    apply Qle_bool_iff in Hle. congruence.
  - intros Hlt. destruct (Qle_bool x y) eqn:Hb; [|reflexivity].
    apply Qle_bool_iff in Hb. exfalso. apply (Qlt_not_le _ _ Hlt Hb).
Qed.

Lemma gtb_le (x y : Q) : gtb x y = false <-> (x <= y)%Q.
Proof.
  unfold gtb. rewrite negb_false_iff. apply Qle_bool_iff.
Qed.

(** C8 fails on the boundary: a reading whose kurtosis is exactly 4.0 is not
    flagged as elevated and is shown in the normal colour. *)
Lemma kurtosis_four_is_normal :
  LiveTelemetry.vibration_kurtosis ExampleHost.onBoundary = 4.0%Q
  /\ LiveTelemetry.kurtosisElevated (Some ExampleHost.onBoundary) = false
  /\ LiveTelemetry.kurtosisColour (Some ExampleHost.onBoundary) = "text-[#3FB950]".
Proof. repeat split. Qed.

(** C8, amended. Every threshold test of the live-telemetry page is a
    function of the compared value alone and is strict: the kurtosis indicator
    is raised exactly when the kurtosis of the latest reading is strictly
    above 4, so a value exactly on the boundary belongs to the lower (normal)
    band; likewise the vibration and temperature trends are [up] exactly
    above 25 and 50.  Nothing is raised while there is no reading. *)
Theorem thresholds_are_strict :
  (forall r,
     LiveTelemetry.kurtosisElevated (Some r) = true
     <-> (4 < LiveTelemetry.vibration_kurtosis r)%Q)
  /\ (forall r,
       (LiveTelemetry.vibration_kurtosis r == 4)%Q ->
       LiveTelemetry.kurtosisElevated (Some r) = false
       /\ LiveTelemetry.kurtosisColour (Some r) = "text-[#3FB950]")
  /\ (forall r1 r2,
       (LiveTelemetry.vibration_kurtosis r1 == LiveTelemetry.vibration_kurtosis r2)%Q ->
       LiveTelemetry.kurtosisElevated (Some r1) = LiveTelemetry.kurtosisElevated (Some r2))
  /\ (forall r,
       LiveTelemetry.vibrationTrend (Some r) = LiveTelemetry.up
       <-> (25 < LiveTelemetry.vibration_rms r)%Q)
  /\ (forall r,
       LiveTelemetry.temperatureTrend (Some r) = LiveTelemetry.up
       <-> (50 < LiveTelemetry.temperature r)%Q)
  /\ LiveTelemetry.kurtosisElevated None = false
  /\ LiveTelemetry.vibrationTrend None = LiveTelemetry.stable
  /\ LiveTelemetry.temperatureTrend None = LiveTelemetry.stable.
Proof.
  split; [|split; [|split; [|split; [|split]]]].
  - intros r. apply gtb_lt.
  - intros r Heq.
    assert (Hlow : LiveTelemetry.kurtosisElevated (Some r) = false).
    { simpl. apply gtb_le. rewrite Heq. apply Qle_refl. }
    split; [exact Hlow|]. unfold LiveTelemetry.kurtosisColour. rewrite Hlow. reflexivity.
  - intros r1 r2 Heq. simpl. unfold gtb. rewrite Heq. reflexivity.
  - intros r. simpl. rewrite <- gtb_lt.
    destruct (gtb (LiveTelemetry.vibration_rms r) 25); split; congruence.
  - intros r. simpl. rewrite <- gtb_lt.
    destruct (gtb (LiveTelemetry.temperature r) 50); split; congruence.
  - repeat split.
Qed.

(** ** The vibration value of a generated reading *)

Lemma exact_small_integers :
  (round64 0 == 0 /\ round64 4 == 4 /\ round64 20 == 20 /\ round64 24 == 24
   /\ round64 25 == 25 /\ round64 55 == 55 /\ round64 80 == 80
   /\ round64 60 == 60 /\ round64 66 == 66)%Q.
Proof. vm_compute. repeat split. Qed.

Lemma anomalous_vibration_range r :
  (0 <= r)%Q -> (r < 1)%Q ->
  (55 <= fadd 55 (fmul r 25))%Q /\ (fadd 55 (fmul r 25) <= 80)%Q.
Proof.
  intros H0 H1.
  destruct exact_small_integers as (E0 & _ & _ & _ & E25 & E55 & E80 & _).
  destruct (Binary64Facts.fmul_between 0 25 r 25 E0 E25) as [Hlo Hhi]; [lra|lra|].
  apply Binary64Facts.fadd_between; [exact E55|exact E80|lra|lra].
Qed.

Lemma baseline_vibration_range r :
  (0 <= r)%Q -> (r < 1)%Q ->
  (20 <= fadd 20 (fmul r 4))%Q /\ (fadd 20 (fmul r 4) <= 24)%Q.
Proof.
  intros H0 H1.
  destruct exact_small_integers as (E0 & E4 & E20 & E24 & _).
  destruct (Binary64Facts.fmul_between 0 4 r 4 E0 E4) as [Hlo Hhi]; [lra|lra|].
  apply Binary64Facts.fadd_between; [exact E20|exact E24|lra|lra].
Qed.

(** C10. The right ends of the two ranges are reached: with the vibration
    draw [1 - 2^-52], itself a double below 1, [55 + draw * 25] lies half way
    between 80 and the double before it and rounds to 80; likewise
    [20 + draw * 4] rounds to 24.  The anomaly draws [127/128] and [1/2] are
    doubles too.  The half-open ranges [[55, 80)] and [[20, 24)] hold of the
    real numbers only. *)
Lemma vibration_reaches_range_end :
  ((0 <= ExampleHost.nearOne)%Q /\ (ExampleHost.nearOne < 1)%Q
   /\ (round64 ExampleHost.nearOne == ExampleHost.nearOne)%Q)
  /\ (isAnomaly (ExampleHost.withDraws (127 # 128) ExampleHost.nearOne) = true
      /\ (vibration (newPoint (ExampleHost.withDraws (127 # 128) ExampleHost.nearOne)
                       (seedPoint ExampleHost.noSeed 39)) == 80)%Q)
  /\ (isAnomaly (ExampleHost.withDraws 0.5 ExampleHost.nearOne) = false
      /\ (vibration (newPoint (ExampleHost.withDraws 0.5 ExampleHost.nearOne)
                       (seedPoint ExampleHost.noSeed 39)) == 24)%Q).
Proof. vm_compute. repeat split; discriminate. Qed.

(** C10. For a draw in [[0, 1)], the vibration of the reading a tick
    generates is the double [55 + draw * 25], within [[55, 80]], when the
    tick is anomalous, and the double [20 + draw * 4], within [[20, 24]],
    when it is not; sum and product are rounded to binary64.  The first
    range lies above the critical threshold 50 and the second below the
    warning threshold 30 of the alert parameters, so comparing the value with
    either threshold gives the anomaly flag; and no constant factor, applied
    exactly or with rounding, turns the baseline value into the anomalous
    value for equal draws. *)
Theorem generated_vibration_ranges (env : TickEnv) (l : TelemetryPoint) :
  (0 <= rVibration env)%Q ->
  (rVibration env < 1)%Q ->
  Parameters.threshold "vib_crit" = Some 50%Q
  /\ Parameters.threshold "vib_warn" = Some 30%Q
  /\ (isAnomaly env = true ->
      vibration (newPoint env l) = fadd 55 (fmul (rVibration env) 25)
      /\ (55 <= vibration (newPoint env l))%Q
      /\ (vibration (newPoint env l) <= 80)%Q
      /\ (50 < vibration (newPoint env l))%Q)
  /\ (isAnomaly env = false ->
      vibration (newPoint env l) = fadd 20 (fmul (rVibration env) 4)
      /\ (20 <= vibration (newPoint env l))%Q
      /\ (vibration (newPoint env l) <= 24)%Q
      /\ (vibration (newPoint env l) < 30)%Q)
  /\ isAnomaly env = Qle_bool 50 (vibration (newPoint env l))
  /\ isAnomaly env = Qle_bool 30 (vibration (newPoint env l))
  /\ ~ (exists k : Q, forall hot cold,
          isAnomaly hot = true ->
          isAnomaly cold = false ->
          rVibration hot = rVibration cold ->
          (0 <= rVibration hot)%Q -> (rVibration hot < 1)%Q ->
          (vibration (newPoint hot l) == k * vibration (newPoint cold l))%Q)
  /\ ~ (exists k : Q, forall hot cold,
          isAnomaly hot = true ->
          isAnomaly cold = false ->
          rVibration hot = rVibration cold ->
          (0 <= rVibration hot)%Q -> (rVibration hot < 1)%Q ->
          (vibration (newPoint hot l) == fmul k (vibration (newPoint cold l)))%Q).
Proof.
  intros H0 H1. split; [reflexivity|]. split; [reflexivity|].
  assert (Ha : isAnomaly env = true ->
               vibration (newPoint env l) = fadd 55 (fmul (rVibration env) 25))
    by (intros Hx; simpl; rewrite Hx; reflexivity).
  assert (Hb : isAnomaly env = false ->
               vibration (newPoint env l) = fadd 20 (fmul (rVibration env) 4))
    by (intros Hx; simpl; rewrite Hx; reflexivity).
  destruct (anomalous_vibration_range _ H0 H1) as [Ha1 Ha2].
  destruct (baseline_vibration_range _ H0 H1) as [Hb1 Hb2].
  assert (Hhot0 : isAnomaly (ExampleHost.withDraws (127 # 128) 0) = true)
    by (vm_compute; reflexivity).
  assert (Hcold0 : isAnomaly (ExampleHost.withDraws 0.5 0) = false)
    by (vm_compute; reflexivity).
  assert (Hhot1 : isAnomaly (ExampleHost.withDraws (127 # 128) 0.5) = true)
    by (vm_compute; reflexivity).
  assert (Hcold1 : isAnomaly (ExampleHost.withDraws 0.5 0.5) = false)
    by (vm_compute; reflexivity).
  assert (V0 : (vibration (newPoint (ExampleHost.withDraws (127 # 128) 0) l) == 55)%Q)
    by (vm_compute; reflexivity).
  assert (W0 : (vibration (newPoint (ExampleHost.withDraws 0.5 0) l) == 20)%Q)
    by (vm_compute; reflexivity).
  assert (V1 : (vibration (newPoint (ExampleHost.withDraws (127 # 128) 0.5) l) == 67.5)%Q)
    by (vm_compute; reflexivity).
  assert (W1 : (vibration (newPoint (ExampleHost.withDraws 0.5 0.5) l) == 22)%Q)
    by (vm_compute; reflexivity).
  split; [|split; [|split; [|split; [|split]]]].
  - intros Hx. rewrite (Ha Hx). repeat split; lra.
  - intros Hx. rewrite (Hb Hx). repeat split; lra.
  - destruct (isAnomaly env) eqn:Hx; symmetry.
    + rewrite (Ha eq_refl). apply Qle_bool_iff. lra.
    + rewrite (Hb eq_refl). apply not_true_is_false. rewrite Qle_bool_iff. lra.
  - destruct (isAnomaly env) eqn:Hx; symmetry.
    + rewrite (Ha eq_refl). apply Qle_bool_iff. lra.
    + rewrite (Hb eq_refl). apply not_true_is_false. rewrite Qle_bool_iff. lra.
  - intros [k Hk].
    pose proof (Hk _ _ Hhot0 Hcold0 eq_refl) as E0.
    pose proof (Hk _ _ Hhot1 Hcold1 eq_refl) as E1.
    change (rVibration (ExampleHost.withDraws (127 # 128) 0)) with 0%Q in E0.
    change (rVibration (ExampleHost.withDraws (127 # 128) 0.5)) with 0.5%Q in E1.
    assert (E0' := E0 ltac:(lra) ltac:(lra)).
    assert (E1' := E1 ltac:(lra) ltac:(lra)).
    rewrite V0, W0 in E0'. rewrite V1, W1 in E1'. lra.
  - intros [k Hk].
    pose proof (Hk _ _ Hhot0 Hcold0 eq_refl) as E0.
    pose proof (Hk _ _ Hhot1 Hcold1 eq_refl) as E1.
    change (rVibration (ExampleHost.withDraws (127 # 128) 0)) with 0%Q in E0.
    change (rVibration (ExampleHost.withDraws (127 # 128) 0.5)) with 0.5%Q in E1.
    assert (E0' := E0 ltac:(lra) ltac:(lra)).
    assert (E1' := E1 ltac:(lra) ltac:(lra)).
    rewrite V0 in E0'. rewrite V1 in E1'. unfold fmul in E0', E1'.
    destruct exact_small_integers as (_ & _ & _ & _ & _ & _ & _ & E60 & E66).
    destruct (Qlt_le_dec 3 k) as [Hbig|Hsmall].
    + assert (Hm : (round64 60
                    <= round64 (k * vibration (newPoint (ExampleHost.withDraws 0.5 0) l)))%Q)
        by (apply Binary64Facts.round64_monotone; rewrite W0; lra).
      lra.
    + assert (Hm : (round64 (k * vibration (newPoint (ExampleHost.withDraws 0.5 0.5) l))
                    <= round64 66)%Q)
        by (apply Binary64Facts.round64_monotone; rewrite W1; lra).
      lra.
Qed.

Lemma generated_vibration_ranges_witness :
  (55 <= vibration (newPoint ExampleHost.spike (seedPoint ExampleHost.noSeed 39)))%Q
  /\ (vibration (newPoint ExampleHost.spike (seedPoint ExampleHost.noSeed 39)) <= 80)%Q
  /\ (50 < vibration (newPoint ExampleHost.spike (seedPoint ExampleHost.noSeed 39)))%Q.
Proof.
  assert (Hhot : isAnomaly ExampleHost.spike = true) by (vm_compute; reflexivity).
  destruct (generated_vibration_ranges ExampleHost.spike (seedPoint ExampleHost.noSeed 39))
    as (_ & _ & Hspike & _).
  - simpl. lra.
  - simpl. lra.
  - destruct (Hspike Hhot) as (_ & Hlo & Hhi & Hcrit).
    split; [exact Hlo|]. split; [exact Hhi|exact Hcrit].
Defined.

(** * Further properties of the pages *)

(** ** The console: alert log *)

Section ConsoleLog.
Context `{Runtime}.

Lemma run_snd_cons e es st :
  snd (run (e :: es) st) =
  match step e st with
  | (Normal _, st1) => snd (run es st1)
  | (Throw _, st1) => st1
  end.
Proof. simpl. unfold bind. destruct (step e st) as [[[]|err] st1]; reflexivity. Qed.

Lemma step_cases e st :
  (exists env l,
      e = Tick env /\ last (telemetry st) = Some l /\ escalates env st = true
      /\ step e st =
         (Normal tt,
          setTelemetry (drop 1 (telemetry st) ++ [newPoint env l])
            (setSystemStatus degraded
               (setLogs (take 15 (anomalyEntry env l :: logs st)) st))))
  \/ (exists c, step e st = (c, snd (step e st))
                /\ logs (snd (step e st)) = logs st
                /\ (systemStatus (snd (step e st)) = systemStatus st
                    \/ (e = Recalibrate /\ systemStatus (snd (step e st)) = nominal))).
Proof.
  destruct e as [env| |net]; simpl.
  - rewrite tick_unfold. destruct (last (telemetry st)) as [l|] eqn:Hl.
    + destruct (escalates env st) eqn:He.
      * left. exists env, l. repeat split. exact He.
      * right. eexists. repeat split. left. reflexivity.
    + right. eexists. repeat split. left. reflexivity.
  - right. eexists. repeat split. right. split; reflexivity.
  - rewrite runAiAnalysis_unfold. right. eexists. repeat split. left. reflexivity.
Qed.

Lemma alerts_budget es : forall st k,
  length (logs st) + (if bool_decide (systemStatus st = nominal) then 1 else 0) <= S k ->
  length (logs (snd (run es st)))
    + (if bool_decide (systemStatus (snd (run es st)) = nominal) then 1 else 0)
  <= S (k + length (List.filter isRecalibrate es)).
Proof.
  induction es as [|e es IH]; intros st k Hk.
  - simpl. lia.
  - rewrite run_snd_cons.
    destruct (step_cases e st) as [(env & l & -> & Hl & He & Hs)|(c & Hs & Hlogs & Hst)].
    + rewrite Hs. simpl. apply IH. simpl.
      unfold escalates in He. apply andb_true_iff in He as [_ Hn].
      rewrite Hn in Hk. rewrite length_take. lia.
    + assert (Hk1 : length (logs (snd (step e st)))
                    + (if bool_decide (systemStatus (snd (step e st)) = nominal) then 1 else 0)
                    <= S (k + length (List.filter isRecalibrate [e]))).
      { rewrite Hlogs. destruct Hst as [->|[-> ->]]; simpl.
        - lia.
        - destruct (bool_decide (systemStatus st = nominal)); lia. }
      rewrite Hs. destruct c as [[]|err].
      * specialize (IH _ _ Hk1). simpl in IH |- *.
        destruct (isRecalibrate e); simpl in IH |- *; lia.
      * simpl in Hk1 |- *. destruct (isRecalibrate e); simpl in Hk1 |- *; lia.
Qed.

(** X1. Starting from the initial state, the console log never holds more
    entries than one plus the number of [Recalibrate Baseline] clicks of the
    run: between two escalation lines there is always a recalibration. *)
Theorem alerts_bounded_by_recalibrations (seeds : nat -> Seed) (es : list Event) :
  length (logs (snd (run es (initial seeds))))
  <= S (length (List.filter isRecalibrate es)).
Proof.
  pose proof (alerts_budget es (initial seeds) 0) as Hb. simpl in Hb.
  specialize (Hb ltac:(lia)). lia.
Qed.

(** X2. Every line of the console log, in every reachable state, has type
    [critical] and carries the anomaly message of some reading: the console
    never writes an [info] or [warning] line. *)
Theorem console_logs_only_anomalies (st : state) :
  reachable st ->
  Forall (fun e => type e = LogType.critical /\ exists p, message e = anomalyMessage p)
    (logs st).
Proof.
  induction 1 as [seeds|e st st' Hr IH Hs].
  - constructor.
  - destruct (step_cases e st) as [(env & l & -> & Hl & He & Hs')|(c & Hs' & Hlogs & _)].
    + rewrite Hs' in Hs. injection Hs as <-. simpl.
      constructor; [split; [reflexivity|eexists; reflexivity]|].
      apply Forall_take. exact IH.
    + rewrite Hs in Hlogs. simpl in Hlogs. rewrite Hlogs. exact IH.
Qed.

(** X3. In every reachable state with status [degraded] the log is not
    empty: the line of the escalation that caused the status is still
    there or has been followed by newer ones. *)
Theorem degraded_has_log_line (st : state) :
  reachable st -> systemStatus st = degraded -> logs st <> [].
Proof.
  induction 1 as [seeds|e st st' Hr IH Hs].
  - discriminate.
  - destruct (step_cases e st) as [(env & l & -> & Hl & He & Hs')|(c & Hs' & Hlogs & Hst)].
    + rewrite Hs' in Hs. injection Hs as <-. simpl. discriminate.
    + rewrite Hs in Hlogs, Hst. simpl in Hlogs, Hst. rewrite Hlogs.
      destruct Hst as [->|[_ ->]]; [exact IH|discriminate].
Qed.

(** X4. [Recalibrate Baseline] re-arms the alert and keeps the log: from any
    status, a recalibration followed by an anomalous tick ends in [degraded]
    with the new escalation line put before the lines that were there. *)
Theorem recalibrate_rearms (env : TickEnv) (st : state) (l : TelemetryPoint) :
  last (telemetry st) = Some l ->
  isAnomaly env = true ->
  exists st',
    run [Recalibrate; Tick env] st = (Normal tt, st')
    /\ systemStatus st' = degraded
    /\ logs st' = take 15 (anomalyEntry env l :: logs st).
Proof.
  intros Hl Ha. simpl. unfold bind, recalibrate, modify.
  rewrite tick_unfold. simpl. rewrite Hl.
  unfold escalates. rewrite Ha. simpl.
  eexists. split; [reflexivity|]. split; reflexivity.
Qed.

End ConsoleLog.

Lemma console_logs_only_anomalies_witness :
  Forall (fun e => type e = LogType.critical /\ exists p, message e = anomalyMessage p)
    (logs ExampleHost.alarmed).
Proof.
  apply (console_logs_only_anomalies (H := ExampleHost.host)).
  apply (reachable_step (Tick ExampleHost.spike) (initial ExampleHost.noSeed));
    [constructor|reflexivity].
Defined.

Lemma degraded_has_log_line_witness :
  exists e rest, logs ExampleHost.alarmed = e :: rest.
Proof.
  pose proof (degraded_has_log_line (H := ExampleHost.host) ExampleHost.alarmed
                (reachable_step (Tick ExampleHost.spike) (initial ExampleHost.noSeed)
                   ExampleHost.alarmed (reachable_initial ExampleHost.noSeed) eq_refl)
                eq_refl) as Hne.
  destruct (logs ExampleHost.alarmed) as [|e rest]; [contradiction|].
  exists e, rest. reflexivity.
Defined.

Lemma recalibrate_rearms_witness :
  exists st',
    run (H := ExampleHost.host) [Recalibrate; Tick ExampleHost.spike] ExampleHost.alarmed
      = (Normal tt, st')
    /\ systemStatus st' = degraded
    /\ length (logs st') = 2%nat.
Proof.
  destruct (recalibrate_rearms (H := ExampleHost.host) ExampleHost.spike ExampleHost.alarmed
              (newPoint ExampleHost.spike (seedPoint ExampleHost.noSeed 39)) eq_refl eq_refl)
    as (st' & Hr & Hs & Hlog).
  exists st'. split; [exact Hr|]. split; [exact Hs|]. rewrite Hlog. reflexivity.
Defined.

(** ** The console: generated values *)

Section ConsoleValues.
Context `{Runtime}.




Lemma exact_chart_bounds :
  (round64 0 == 0 /\ round64 (1 # 2) == 1 # 2 /\ round64 1 == 1 /\ round64 4 == 4
   /\ round64 11 == 11 /\ round64 12 == 12 /\ round64 (25 # 2) == 25 # 2
   /\ round64 18 == 18 /\ round64 22 == 22)%Q.
Proof. vm_compute. repeat split. Qed.

Lemma newPoint_in_range env l :
  unitDraws (Tick env) -> inChartRange (newPoint env l).
Proof.
  intros ([Hv0 Hv1] & _ & [Hp0 Hp1]). unfold inChartRange. simpl.
  destruct exact_chart_bounds as (E0 & Eh & _ & _ & _ & E12 & E125 & _).
  destruct (Binary64Facts.fmul_between 0 (1 # 2) (rPower env) 0.5 E0 Eh) as [Hq0 Hq1];
    [lra|lra|].
  destruct (Binary64Facts.fadd_between 12 (25 # 2) 12 (fmul (rPower env) 0.5) E12 E125)
    as [Hw0 Hw1]; [lra|lra|].
  destruct (anomalous_vibration_range _ Hv0 Hv1) as [Ha0 Ha1].
  destruct (baseline_vibration_range _ Hv0 Hv1) as [Hb0 Hb1].
  destruct (isAnomaly env); (split; [|split; lra]); [right|left]; split; lra.
Qed.

Lemma seedPoint_in_range seeds i :
  unitSeeds seeds -> inChartRange (seedPoint seeds i).
Proof.
  intros Hseeds. destruct (Hseeds i) as ([Hv0 Hv1] & _ & [Hp0 Hp1]).
  unfold inChartRange. simpl.
  destruct exact_chart_bounds as (E0 & _ & E1 & E4 & E11 & E12 & _ & E18 & E22).
  destruct (Binary64Facts.fmul_between 0 4 (seedVibration (seeds i)) 4 E0 E4) as [Hq0 Hq1];
    [lra|lra|].
  destruct (Binary64Facts.fadd_between 18 22 18 (fmul (seedVibration (seeds i)) 4) E18 E22)
    as [Hw0 Hw1]; [lra|lra|].
  destruct (Binary64Facts.fmul_between 0 1 (seedPower (seeds i)) 1 E0 E1) as [Hr0 Hr1];
    [lra|lra|].
  destruct (Binary64Facts.fadd_between 11 12 11 (fmul (seedPower (seeds i)) 1) E11 E12)
    as [Hx0 Hx1]; [lra|lra|].
  split; [left|]; split; lra.
Qed.

Lemma run_in_range es : forall st,
  Forall unitDraws es ->
  Forall inChartRange (telemetry st) ->
  Forall inChartRange (telemetry (snd (run es st))).
Proof.
  induction es as [|e es IH]; intros st Hes Hst; [exact Hst|].
  inversion Hes as [|? ? He Hes']; subst. rewrite run_snd_cons.
  destruct e as [env| |net]; simpl step.
  - rewrite tick_unfold. destruct (last (telemetry st)) as [l|]; [|exact Hst].
    apply IH; [exact Hes'|]. simpl. apply Forall_app. split.
    + apply Forall_drop. exact Hst.
    + constructor; [|constructor]. apply newPoint_in_range. exact He.
  - apply IH; assumption.
  - rewrite runAiAnalysis_unfold. apply IH; assumption.
Qed.

(** X6. When every draw of the seeds and of the ticks is a value
    [Math.random()] can return, every point of the chart buffer, in every
    state of every run from the initial state, has a vibration in
    [[18, 24]] or in [[55, 80]] and a power in [[11, 12.5]], the sums and
    products being rounded to binary64: no reading ever falls between the
    baseline and the anomalous range. *)
Theorem chart_values_in_range (seeds : nat -> Seed) (es : list Event) :
  unitSeeds seeds ->
  Forall unitDraws es ->
  Forall inChartRange (telemetry (snd (run es (initial seeds)))).
Proof.
  intros Hseeds Hes. apply run_in_range; [exact Hes|].
  change (telemetry (initial seeds)) with (List.map (seedPoint seeds) (seq 0 40)).
  apply Forall_forall. intros p Hp.
  apply list_elem_of_In, in_map_iff in Hp as (i & <- & _).
  apply seedPoint_in_range. exact Hseeds.
Qed.

(** X7. One call of [runAiAnalysis] hands at most one request to [fetch],
    and which request does not depend on what the service answers: with a
    non-empty chart it is the request built from the latest chart point and
    the current status; with an empty chart reading the latest point throws
    before [fetch] is called, no request is sent and the fallback text is
    shown. *)
Theorem request_from_latest_point (net : network) (st : state) :
  match last (telemetry st) with
  | Some l =>
      requests (snd (runAiAnalysis net st)) = buildRequest l (systemStatus st) :: requests st
  | None =>
      requests (snd (runAiAnalysis net st)) = requests st
      /\ aiInsight (snd (runAiAnalysis net st)) = Some FALLBACK
  end.
Proof.
  rewrite runAiAnalysis_unfold. simpl. unfold issued, analysis.
  destruct (last (telemetry st)); [reflexivity|split; reflexivity].
Qed.

(** X8. The text after the risk figures of a rendered insight is the
    explanation's [natural_language] when that is a non-empty string, and
    the [recommended_action] (printed as [undefined] when absent) when the
    response has no [explanation], a [null] one, or one whose
    [natural_language] is absent or empty.  A [risk_score] or a
    [recommended_action] that cannot be converted to a string makes the
    template literal throw instead. *)
Theorem insight_text_preference (fields : list (string * jsval)) (s : string) :
  own_property "risk_level" fields = Some (JStr s) ->
  (forall err,
      ToString_opt (own_property "risk_score" fields) = Throw err ->
      insightOf (JObj fields) = Throw err)
  /\ (forall score,
        ToString_opt (own_property "risk_score" fields) = Normal score ->
        (forall e c t,
            own_property "explanation" fields = Some (JObj e) ->
            own_property "natural_language" e = Some (JStr (String c t)) ->
            insightOf (JObj fields) =
            Normal ("Risk Level: " ++ String_toUpperCase s ++ " (" ++ score ++ "%). "
                      ++ String c t))
        /\ ((own_property "explanation" fields = None
             \/ own_property "explanation" fields = Some JNull
             \/ (exists e, own_property "explanation" fields = Some (JObj e)
                           /\ (own_property "natural_language" e = None
                               \/ own_property "natural_language" e
                                  = Some (JStr EmptyString)))) ->
            (forall action,
                ToString_opt (own_property "recommended_action" fields) = Normal action ->
                insightOf (JObj fields) =
                Normal ("Risk Level: " ++ String_toUpperCase s ++ " (" ++ score ++ "%). "
                          ++ action))
            /\ (forall err,
                  ToString_opt (own_property "recommended_action" fields) = Throw err ->
                  insightOf (JObj fields) = Throw err)
            /\ (own_property "recommended_action" fields = None ->
                insightOf (JObj fields) =
                Normal ("Risk Level: " ++ String_toUpperCase s ++ " (" ++ score ++ "%). "
                          ++ "undefined")))).
Proof.
  intros Hrl. rewrite (insightOf_object fields s Hrl). split.
  - intros err ->. reflexivity.
  - intros score ->. cbn [and_then]. unfold natural_language. cbn [member and_then]. split.
    + intros e c t -> Hnl. cbn [member]. rewrite Hnl. reflexivity.
    + intros Hexp.
      assert (Htext :
                and_then
                  match own_property "explanation" fields with
                  | Some JNull => Normal None
                  | Some e => member e "natural_language"
                  | None => Normal None
                  end
                  (fun nl =>
                     and_then (if truthy nl then Normal nl
                               else Normal (own_property "recommended_action" fields))
                       (fun text =>
                          and_then (ToString_opt text) (fun shown =>
                          Normal ("Risk Level: " ++ String_toUpperCase s ++ " (" ++ score
                                    ++ "%). " ++ shown))))
                = and_then (ToString_opt (own_property "recommended_action" fields))
                    (fun shown =>
                       Normal ("Risk Level: " ++ String_toUpperCase s ++ " (" ++ score
                                 ++ "%). " ++ shown))).
      { destruct Hexp as [->|[->|(e & -> & [Hnl|Hnl])]]; cbn [member and_then];
          try rewrite Hnl; reflexivity. }
      rewrite Htext. split; [|split].
      * intros action ->. reflexivity.
      * intros err ->. reflexivity.
      * intros ->. reflexivity.
Qed.

End ConsoleValues.


Lemma chart_values_in_range_witness :
  Forall inChartRange
    (telemetry (snd (run (H := ExampleHost.host) [Tick ExampleHost.calm; Tick ExampleHost.spike]
                       (initial ExampleHost.noSeed)))).
Proof.
  apply (chart_values_in_range (H := ExampleHost.host)).
  - intros i. repeat split; simpl; lra.
  - repeat constructor; simpl; lra.
Defined.

Lemma insight_text_preference_witness :
  insightOf (H := ExampleHost.host) ExampleHost.complete
  = Normal "Risk Level: HIGH (87%). Stop".
Proof.
  destruct (insight_text_preference (H := ExampleHost.host)
              [("risk_level", JStr "high"); ("risk_score", JNum 87);
               ("recommended_action", JStr "Stop")] "high" eq_refl) as [_ Hscore].
  destruct (Hscore "87" eq_refl) as [_ Hrec].
  destruct (Hrec (or_introl eq_refl)) as [Haction _].
  exact (Haction "Stop" eq_refl).
Defined.

(** ** The full log view: arrivals, counters and filter *)

(** X9. Indexing an array with [Math.floor(r * length)] stays inside the
    array: for a non-empty list and a draw in [[0, 1)], [pick] returns an
    element of the list. *)
Theorem pick_in_range {A : Type} (xs : list A) (r : Q) :
  (0 <= r)%Q -> (r < 1)%Q -> xs <> [] ->
  exists x, KernelLogs.pick xs r = Some x /\ x ∈ xs.
Proof.
  intros H0 H1 Hne. unfold KernelLogs.pick.
  assert (Hlen : (0 < Z.of_nat (length xs))%Z) by (destruct xs; [contradiction|simpl; lia]).
  assert (HlenQ : (0 < inject_Z (Z.of_nat (length xs)))%Q)
    by (rewrite <- (Zlt_Qlt 0); exact Hlen).
  set (n := inject_Z (Z.of_nat (length xs))) in *.
  assert (Hlo : (0 <= Qfloor (r * n))%Z).
  { change 0%Z with (Qfloor (inject_Z 0)) at 1. apply Qfloor_resp_le.
    apply Qmult_le_0_compat; [exact H0|apply Qlt_le_weak; exact HlenQ]. }
  assert (Hhi : (Qfloor (r * n) < Z.of_nat (length xs))%Z).
  { rewrite Zlt_Qlt. apply Qle_lt_trans with (r * n)%Q; [apply Qfloor_le|].
    fold n. apply Qlt_le_trans with (1 * n)%Q;
      [apply Qmult_lt_compat_r; assumption|rewrite Qmult_1_l; apply Qle_refl]. }
  destruct (Z.ltb_spec (Qfloor (r * n)) 0) as [Hneg|_]; [lia|].
  destruct (lookup_lt_is_Some_2 xs (Z.to_nat (Qfloor (r * n)))) as [x Hx]; [lia|].
  exists x. split; [exact Hx|]. exact (list_elem_of_lookup_2 _ _ _ Hx).
Qed.

Lemma pick_in_range_witness :
  exists x, KernelLogs.pick KernelLogs.levels 0.99 = Some x /\ x ∈ KernelLogs.levels.
Proof. apply pick_in_range; [lra|lra|discriminate]. Defined.

Lemma pick_member {A : Type} (xs : list A) (r : Q) (x : A) :
  KernelLogs.pick xs r = Some x -> x ∈ xs.
Proof.
  unfold KernelLogs.pick. destruct (_ <? _)%Z; [discriminate|].
  apply list_elem_of_lookup_2.
Qed.

Lemma arrival_not_critical a :
  KernelLogs.level (KernelLogs.newLog a) <> Some KernelLogs.critical.
Proof.
  simpl. intros Hp. apply pick_member, list_elem_of_In in Hp.
  simpl in Hp. intuition discriminate.
Qed.

(** X10. A line produced by the interval with draws in [[0, 1)] has all its
    fields: a level among [debug], [info], [warning] and [error] (never
    [critical]), a source of the list [sources] and a message of the list
    [messages]. *)
Theorem arrival_well_formed (a : KernelLogs.Arrival) :
  KernelLogs.unitArrival (KernelLogs.Arrive a) ->
  exists l s m,
    KernelLogs.newLog a = KernelLogs.entry (KernelLogs.stamp a) (KernelLogs.isoTime a) l s m
    /\ l <> KernelLogs.critical
    /\ s ∈ KernelLogs.sources
    /\ m ∈ KernelLogs.messages.
Proof.
  intros ([Hl0 Hl1] & [Hs0 Hs1] & [Hm0 Hm1]).
  destruct (pick_in_range KernelLogs.levels (KernelLogs.rLevel a) Hl0 Hl1) as (l & Hl & Hlin);
    [discriminate|].
  destruct (pick_in_range KernelLogs.sources (KernelLogs.rSource a) Hs0 Hs1) as (s & Hs & Hsin);
    [discriminate|].
  destruct (pick_in_range KernelLogs.messages (KernelLogs.rMessage a) Hm0 Hm1)
    as (m & Hm & Hmin); [discriminate|].
  exists l, s, m. split; [|split; [|split; assumption]].
  - unfold KernelLogs.newLog, KernelLogs.entry. rewrite Hl, Hs, Hm. reflexivity.
  - intros ->. apply list_elem_of_In in Hlin. simpl in Hlin. intuition discriminate.
Qed.

Lemma count_take_le {A : Type} (f : A -> bool) (n : nat) : forall l : list A,
  length (List.filter f (take n l)) <= length (List.filter f l).
Proof.
  induction n as [|n IH]; intros [|x l]; simpl; try lia.
  specialize (IH l). destruct (f x); simpl; lia.
Qed.

Lemma critical_not_added e logs :
  KernelLogs.countLevel KernelLogs.critical (KernelLogs.step e logs)
  <= KernelLogs.countLevel KernelLogs.critical logs.
Proof.
  unfold KernelLogs.countLevel. destruct e as [a|]; [|simpl; lia].
  change (KernelLogs.step (KernelLogs.Arrive a) logs)
    with (take 100 (KernelLogs.newLog a :: logs)).
  etransitivity; [apply count_take_le|]. simpl.
  rewrite bool_decide_eq_false_2; [lia|]. apply arrival_not_critical.
Qed.

(** X11. The interval never adds a [critical] line, whatever it draws: in
    every state of the view the [critical] counter is at most 1, the one
    critical line of [MOCK_LOGS]. *)
Theorem critical_count_bounded (ago : Z -> string) (es : list KernelLogs.Event) :
  KernelLogs.LogCounts.critical (KernelLogs.logCounts (KernelLogs.run es (KernelLogs.MOCK_LOGS ago)))
  <= 1.
Proof.
  simpl. unfold KernelLogs.run.
  assert (Hgen : forall logs,
             KernelLogs.countLevel KernelLogs.critical
               (foldl (fun l e => KernelLogs.step e l) logs es)
             <= KernelLogs.countLevel KernelLogs.critical logs).
  { induction es as [|e es IH]; intros logs; simpl; [lia|].
    etransitivity; [apply IH|]. apply critical_not_added. }
  etransitivity; [apply Hgen|]. vm_compute. lia.
Qed.

Lemma counts_partition (logs : list KernelLogs.LogEntry) :
  Forall (fun e => KernelLogs.level e <> None) logs ->
  length logs =
  KernelLogs.countLevel KernelLogs.debug logs + KernelLogs.countLevel KernelLogs.info logs
  + KernelLogs.countLevel KernelLogs.warning logs + KernelLogs.countLevel KernelLogs.error logs
  + KernelLogs.countLevel KernelLogs.critical logs.
Proof.
  unfold KernelLogs.countLevel. induction 1 as [|e logs He Hlogs IH]; [reflexivity|].
  simpl. destruct (KernelLogs.level e) as [[]|]; [..|contradiction]; simpl; lia.
Qed.

Lemma levels_defined es : forall logs,
  Forall KernelLogs.unitArrival es ->
  Forall (fun e => KernelLogs.level e <> None) logs ->
  Forall (fun e => KernelLogs.level e <> None) (KernelLogs.run es logs).
Proof.
  unfold KernelLogs.run.
  induction es as [|e es IH]; intros logs Hes Hlogs; [exact Hlogs|].
  inversion Hes as [|? ? He Hes']; subst. simpl. apply IH; [exact Hes'|].
  destruct e as [a|]; [|constructor].
  change (KernelLogs.step (KernelLogs.Arrive a) logs)
    with (take 100 (KernelLogs.newLog a :: logs)).
  apply Forall_take. constructor; [|exact Hlogs].
  destruct (arrival_well_formed a He) as (l & s & m & -> & _). discriminate.
Qed.

(** X12. The five level counters add up to the total shown on the [all]
    button: in every state reached from [MOCK_LOGS] by arrivals with draws in
    [[0, 1)] and by clearing, every line is counted under exactly one
    level. *)
Theorem counters_add_up (ago : Z -> string) (es : list KernelLogs.Event) :
  Forall KernelLogs.unitArrival es ->
  KernelLogs.LogCounts.all (KernelLogs.logCounts (KernelLogs.run es (KernelLogs.MOCK_LOGS ago)))
  = KernelLogs.LogCounts.debug (KernelLogs.logCounts (KernelLogs.run es (KernelLogs.MOCK_LOGS ago)))
    + KernelLogs.LogCounts.info (KernelLogs.logCounts (KernelLogs.run es (KernelLogs.MOCK_LOGS ago)))
    + KernelLogs.LogCounts.warning (KernelLogs.logCounts (KernelLogs.run es (KernelLogs.MOCK_LOGS ago)))
    + KernelLogs.LogCounts.error (KernelLogs.logCounts (KernelLogs.run es (KernelLogs.MOCK_LOGS ago)))
    + KernelLogs.LogCounts.critical (KernelLogs.logCounts (KernelLogs.run es (KernelLogs.MOCK_LOGS ago))).
Proof.
  intros Hes. simpl. apply counts_partition. apply levels_defined; [exact Hes|].
  repeat constructor; discriminate.
Qed.

Lemma arrival_well_formed_witness :
  exists l s m,
    KernelLogs.newLog ExampleHost.heartbeat
    = KernelLogs.entry "1700000000000" "2023-11-14T22:13:20.000Z" l s m
    /\ l <> KernelLogs.critical.
Proof.
  destruct (arrival_well_formed ExampleHost.heartbeat) as (l & s & m & Heq & Hl & _).
  - repeat split; simpl; lra.
  - exists l, s, m. split; [exact Heq|exact Hl].
Defined.

Lemma counters_add_up_witness :
  KernelLogs.LogCounts.all
    (KernelLogs.logCounts
       (KernelLogs.run [KernelLogs.Arrive ExampleHost.heartbeat; KernelLogs.Clear;
                        KernelLogs.Arrive ExampleHost.heartbeat]
          (KernelLogs.MOCK_LOGS ExampleHost.ago)))
  = 1%nat.
Proof.
  rewrite (counters_add_up ExampleHost.ago
             [KernelLogs.Arrive ExampleHost.heartbeat; KernelLogs.Clear;
              KernelLogs.Arrive ExampleHost.heartbeat]).
  - reflexivity.
  - repeat constructor; simpl; lra.
Defined.

#[local] Existing Instance KernelLogs.Level_eq_dec.

Section LogFilter.
Variable toLowerCase : string -> string.

Lemma includes_empty (s : string) : KernelLogs.includes s EmptyString = true.
Proof. destruct s; reflexivity. Qed.

Lemma levelName_inj (a b : KernelLogs.Level) :
  KernelLogs.levelName a = KernelLogs.levelName b -> a = b.
Proof. destruct a, b; simpl; intros Heq; try reflexivity; discriminate. Qed.

Lemma filterM_total {A : Type} (keep : A -> completion bool) (f : A -> bool) (l : list A) :
  Forall (fun x => keep x = Normal (f x)) l ->
  KernelLogs.filterM keep l = Normal (List.filter f l).
Proof.
  induction 1 as [|x l Hx Hl IH]; [reflexivity|].
  simpl. rewrite Hx. simpl. rewrite IH. reflexivity.
Qed.

Lemma filter_sublist {A : Type} (f : A -> bool) (l : list A) :
  List.filter f l `sublist_of` l.
Proof.
  induction l as [|x l IH]; simpl; [constructor|].
  destruct (f x); [apply sublist_skip|apply sublist_cons]; exact IH.
Qed.

(** X13. When every line has a message and a source, the filter of the log
    view does not throw and shows a sub-sequence of the log, in the same
    order.  With a search term that lower-cases to the empty string, the
    filter [all] shows the whole log, and the filter of a level shows exactly
    the lines of that level, as many as the counter on its button says. *)
Theorem filter_view (filter searchTerm : string) (logs : list KernelLogs.LogEntry) :
  Forall (fun e => KernelLogs.message e <> None /\ KernelLogs.source e <> None) logs ->
  exists shown,
    KernelLogs.filteredLogs toLowerCase filter searchTerm logs = Normal shown
    /\ shown `sublist_of` logs
    /\ (toLowerCase searchTerm = EmptyString ->
        (filter = "all" -> shown = logs)
        /\ (forall l,
              filter = KernelLogs.levelName l ->
              shown = List.filter (fun e => bool_decide (KernelLogs.level e = Some l)) logs
              /\ length shown = KernelLogs.countLevel l logs)).
Proof.
  intros Hwf.
  set (f := fun e =>
              match KernelLogs.matchesSearch toLowerCase searchTerm e with
              | Normal b => KernelLogs.matchesFilter filter e && b
              | Throw _ => false
              end).
  assert (Hkeep : Forall (fun e =>
                     and_then (KernelLogs.matchesSearch toLowerCase searchTerm e)
                       (fun ms => Normal (KernelLogs.matchesFilter filter e && ms))
                     = Normal (f e)) logs).
  { eapply Forall_impl; [exact Hwf|]. intros e [Hm Hs]. unfold f, KernelLogs.matchesSearch.
    destruct (KernelLogs.message e) as [m|]; [|contradiction].
    destruct (KernelLogs.source e) as [s|]; [|contradiction]. simpl.
    destruct (KernelLogs.includes (toLowerCase m) (toLowerCase searchTerm)); reflexivity. }
  exists (List.filter f logs). split; [exact (filterM_total _ f logs Hkeep)|].
  split; [apply filter_sublist|]. intros Hq.
  assert (Hf : forall e, In e logs -> f e = KernelLogs.matchesFilter filter e).
  { intros e He. rewrite Forall_forall in Hwf.
    destruct (Hwf e (proj2 (list_elem_of_In _ _) He)) as [Hm _].
    unfold f, KernelLogs.matchesSearch. rewrite Hq.
    destruct (KernelLogs.message e) as [m|]; [|contradiction]. simpl.
    rewrite includes_empty. apply andb_true_r. }
  rewrite (filter_ext_in _ _ _ Hf). split.
  - intros ->. clear. induction logs as [|e logs IH]; [reflexivity|].
    simpl. f_equal. exact IH.
  - intros l ->.
    assert (Hl : forall e,
               KernelLogs.matchesFilter (KernelLogs.levelName l) e
               = bool_decide (KernelLogs.level e = Some l)).
    { intros e. unfold KernelLogs.matchesFilter.
      rewrite bool_decide_eq_false_2 by (destruct l; discriminate). simpl.
      apply bool_decide_ext. destruct (KernelLogs.level e) as [l'|]; simpl.
      - split; [intros [= Heq]; f_equal; apply levelName_inj; exact Heq|intros [= ->]; reflexivity].
      - split; discriminate. }
    rewrite (filter_ext _ _ Hl). split; reflexivity.
Qed.

End LogFilter.

Lemma filter_view_witness :
  exists shown,
    KernelLogs.filteredLogs ExampleHost.lower "warning" EmptyString
      (KernelLogs.MOCK_LOGS ExampleHost.ago) = Normal shown
    /\ length shown = 2%nat.
Proof.
  destruct (filter_view ExampleHost.lower "warning" EmptyString
              (KernelLogs.MOCK_LOGS ExampleHost.ago)) as (shown & Hs & _ & Hq).
  - repeat constructor; discriminate.
  - exists shown. split; [exact Hs|].
    destruct (Hq eq_refl) as [_ Hl].
    destruct (Hl KernelLogs.warning eq_refl) as [_ ->]. reflexivity.
Defined.

(** ** The live-telemetry page: cards and chart *)

(** X14. The metric cards and the chart of the live-telemetry page show the
    same poll: after any sequence of polls, [latestReading] is the reading of
    the last poll that succeeded and the last chart point is the point made
    from that reading; when no poll succeeded the state is untouched. *)
Theorem cards_follow_chart (rs : list (string * LiveTelemetry.latest_result))
    (st : LiveTelemetry.state) :
  match LiveTelemetry.lastSuccess rs with
  | Some (now, reading) =>
      LiveTelemetry.latestReading (LiveTelemetry.poll rs st) = reading
      /\ last (LiveTelemetry.telemetryData (LiveTelemetry.poll rs st))
         = Some (LiveTelemetry.newPoint now reading)
  | None => LiveTelemetry.poll rs st = st
  end.
Proof.
  revert st. induction rs as [|[now res] rs IH]; intros st; [reflexivity|].
  simpl. specialize (IH (LiveTelemetry.fetchLatest now res st)).
  destruct (LiveTelemetry.lastSuccess rs) as [[now' reading']|]; [exact IH|].
  rewrite IH. destruct res as [|reading]; [reflexivity|].
  simpl. split; [reflexivity|apply last_snoc].
Qed.

(** X15. The kurtosis indicator does not use the configured threshold: a
    reading whose kurtosis is above 4 but not above the [kurtosis_thresh]
    parameter (4.5) is shown as elevated, although the comparison with the
    parameter would not raise it. *)
Theorem kurtosis_flag_ignores_parameter (r : LiveTelemetry.TelemetryReading) :
  (4 < LiveTelemetry.vibration_kurtosis r)%Q ->
  (LiveTelemetry.vibration_kurtosis r <= 4.5)%Q ->
  Parameters.threshold "kurtosis_thresh" = Some 4.5%Q
  /\ LiveTelemetry.kurtosisElevated (Some r) = true
  /\ gtb (LiveTelemetry.vibration_kurtosis r) 4.5 = false.
Proof.
  intros Hlo Hhi. split; [reflexivity|]. split.
  - apply gtb_lt. exact Hlo.
  - apply gtb_le. exact Hhi.
Qed.

Lemma kurtosis_flag_ignores_parameter_witness :
  LiveTelemetry.kurtosisElevated (Some ExampleHost.mild) = true
  /\ gtb (LiveTelemetry.vibration_kurtosis ExampleHost.mild) 4.5 = false.
Proof.
  destruct (kurtosis_flag_ignores_parameter ExampleHost.mild) as (_ & He & Hp).
  - simpl. lra.
  - simpl. lra.
  - split; [exact He|exact Hp].
Defined.

(** ** The parameter editor *)

Module EditorFacts.
Import ParameterEditor.

Lemma find_map_preserving {A : Type} (P : A -> bool) (g : A -> A) (l : list A) :
  (forall x, P (g x) = P x) ->
  List.find P (List.map g l) = g <$> List.find P l.
Proof.
  intros Hg. induction l as [|x l IH]; [reflexivity|].
  simpl. rewrite Hg. destruct (P x); [reflexivity|exact IH].
Qed.

Lemma updateSections_map sectionId paramId v secs :
  updateSections sectionId paramId v secs = List.map (editSection sectionId paramId v) secs.
Proof. reflexivity. Qed.

Lemma editParam_id paramId v param : id (editParam paramId v param) = id param.
Proof. unfold editParam. destruct (bool_decide _); reflexivity. Qed.

Lemma editSection_id sectionId paramId v section :
  section_id (editSection sectionId paramId v section) = section_id section.
Proof. unfold editSection. destruct (bool_decide _); reflexivity. Qed.

Lemma editParam_frame paramId v param : frame (editParam paramId v param) = frame param.
Proof. unfold editParam. destruct (bool_decide _); reflexivity. Qed.

Lemma shape_update sectionId paramId v secs :
  shape (updateSections sectionId paramId v secs) = shape secs.
Proof.
  rewrite updateSections_map. unfold shape. rewrite List.map_map.
  apply List.map_ext. intros section. unfold editSection.
  destruct (bool_decide _); [|reflexivity]. simpl.
  rewrite List.map_map. f_equal. apply List.map_ext. intros param. apply editParam_frame.
Qed.

Lemma find_in_shape sectionId secs1 secs2 :
  shape secs1 = shape secs2 ->
  is_Some (List.find (fun s => bool_decide (section_id s = sectionId)) secs1) ->
  is_Some (List.find (fun s => bool_decide (section_id s = sectionId)) secs2).
Proof.
  revert secs2. induction secs1 as [|a secs1 IH]; intros [|b secs2] Hshape Hfind;
    try discriminate; [exact Hfind|].
  simpl in Hshape. injection Hshape as Hid _ _ Hrest. simpl in Hfind |- *.
  rewrite <- Hid. destruct (bool_decide (section_id a = sectionId)); [eauto|].
  apply (IH secs2 Hrest Hfind).
Qed.

End EditorFacts.

Import EditorFacts.

(** X16. An edit is read back as written and touches nothing else: after
    [updateParam s p v], the parameter [p] of section [s], when there is one,
    has the value [v], whatever [v] is (it is not checked against [min],
    [max], the type or the options), and every other parameter has the value
    it had. *)
Theorem update_round_trip (s p : string) (v : ParameterEditor.ParamValue)
    (st : ParameterEditor.state) :
  (is_Some (ParameterEditor.valueOf (ParameterEditor.sections st) s p) ->
   ParameterEditor.valueOf
     (ParameterEditor.sections (ParameterEditor.updateParam s p v st)) s p = Some v)
  /\ (forall s' p',
        (s', p') <> (s, p) ->
        ParameterEditor.valueOf
          (ParameterEditor.sections (ParameterEditor.updateParam s p v st)) s' p'
        = ParameterEditor.valueOf (ParameterEditor.sections st) s' p').
Proof.
  simpl. rewrite updateSections_map. unfold ParameterEditor.valueOf. split.
  - rewrite find_map_preserving by (intros x; rewrite editSection_id; reflexivity).
    destruct (List.find _ (ParameterEditor.sections st)) as [section|] eqn:Hsec;
      [|intros [x Hx]; discriminate].
    apply find_some in Hsec as [_ Hid]. simpl.
    unfold ParameterEditor.editSection. rewrite Hid. simpl.
    rewrite find_map_preserving by (intros x; rewrite editParam_id; reflexivity).
    destruct (List.find _ (ParameterEditor.params section)) as [param|] eqn:Hpar;
      [|intros [x Hx]; discriminate].
    apply find_some in Hpar as [_ Hpid]. intros _. simpl.
    unfold ParameterEditor.editParam. rewrite Hpid. reflexivity.
  - intros s' p' Hne.
    rewrite find_map_preserving by (intros x; rewrite editSection_id; reflexivity).
    destruct (List.find _ (ParameterEditor.sections st)) as [section|] eqn:Hsec;
      [|reflexivity].
    apply find_some in Hsec as [_ Hid]. apply bool_decide_eq_true in Hid. simpl.
    unfold ParameterEditor.editSection. case_bool_decide as Hs; [|reflexivity]. simpl.
    rewrite find_map_preserving by (intros x; rewrite editParam_id; reflexivity).
    destruct (List.find _ (ParameterEditor.params section)) as [param|] eqn:Hpar;
      [|reflexivity].
    apply find_some in Hpar as [_ Hpid]. apply bool_decide_eq_true in Hpid. simpl.
    unfold ParameterEditor.editParam. case_bool_decide as Hp; [|reflexivity].
    exfalso. apply Hne. congruence.
Qed.

(** X17. Every edit raises the unsaved-changes flag, also when it changes
    nothing: when no parameter has the given ids, or when those that have
    them already hold the value, the sections are left as they were and
    [hasChanges] is [true] all the same. *)
Theorem update_marks_unsaved (s p : string) (v : ParameterEditor.ParamValue)
    (st : ParameterEditor.state) :
  ParameterEditor.hasChanges (ParameterEditor.updateParam s p v st) = true
  /\ ((forall section param,
         In section (ParameterEditor.sections st) ->
         In param (ParameterEditor.params section) ->
         ParameterEditor.section_id section = s ->
         ParameterEditor.id param = p ->
         ParameterEditor.value param = v) ->
      ParameterEditor.sections (ParameterEditor.updateParam s p v st)
      = ParameterEditor.sections st).
Proof.
  split; [reflexivity|]. intros Hsame. simpl. rewrite updateSections_map.
  rewrite <- (List.map_id (ParameterEditor.sections st)) at 2.
  apply List.map_ext_in. intros section Hin.
  unfold ParameterEditor.editSection. case_bool_decide as Hs; [|reflexivity].
  destruct section as [sid ttl pars]. simpl in *. f_equal.
  rewrite <- (List.map_id pars) at 2. apply List.map_ext_in. intros param Hpin.
  unfold ParameterEditor.editParam. case_bool_decide as Hp; [|reflexivity].
  specialize (Hsame _ param Hin Hpin Hs Hp). destruct param; simpl in *. subst. reflexivity.
Qed.

Lemma editor_shape es : forall st,
  ParameterEditor.shape (ParameterEditor.sections st)
  = ParameterEditor.shape ParameterEditor.PARAMETER_SECTIONS ->
  ParameterEditor.shape (ParameterEditor.sections (ParameterEditor.run es st))
  = ParameterEditor.shape ParameterEditor.PARAMETER_SECTIONS.
Proof.
  unfold ParameterEditor.run.
  induction es as [|e es IH]; intros st Hst; [exact Hst|].
  simpl. apply IH. destruct e as [s p v| | |s]; simpl; try exact Hst; [|reflexivity].
  rewrite shape_update. exact Hst.
Qed.

(** X18. Edits change values only.  After any sequence of edits, saves,
    resets and section choices from the initial state, the sections still
    have the ids, titles and, for each parameter, the id, label, description,
    type, options, bounds and unit of [PARAMETER_SECTIONS]; so the section
    shown is found whenever the chosen id is one of the four section ids.
    A reset at the end gives back [PARAMETER_SECTIONS] itself with no unsaved
    changes, also when the edits had been saved. *)
Theorem editor_keeps_shape (es : list ParameterEditor.Event) :
  ParameterEditor.shape
    (ParameterEditor.sections (ParameterEditor.run es ParameterEditor.initial))
  = ParameterEditor.shape ParameterEditor.PARAMETER_SECTIONS
  /\ (In (ParameterEditor.activeSection (ParameterEditor.run es ParameterEditor.initial))
         ["alerts"; "model"; "data"; "security"] ->
      is_Some (ParameterEditor.currentSection (ParameterEditor.run es ParameterEditor.initial)))
  /\ ParameterEditor.sections
       (ParameterEditor.run (es ++ [ParameterEditor.Reset]) ParameterEditor.initial)
     = ParameterEditor.PARAMETER_SECTIONS
  /\ ParameterEditor.hasChanges
       (ParameterEditor.run (es ++ [ParameterEditor.Reset]) ParameterEditor.initial)
     = false.
Proof.
  pose proof (editor_shape es ParameterEditor.initial eq_refl) as Hshape.
  split; [exact Hshape|]. split.
  - intros Hin. unfold ParameterEditor.currentSection.
    apply (find_in_shape _ ParameterEditor.PARAMETER_SECTIONS); [symmetry; exact Hshape|].
    simpl in Hin. destruct Hin as [<-|[<-|[<-|[<-|[]]]]]; simpl; eauto.
  - unfold ParameterEditor.run. rewrite foldl_app. split; reflexivity.
Qed.

(** X19. Edits compose as assignments: a second edit of the same parameter
    replaces the first, and edits of different parameters give the same state
    in either order. *)
Theorem updates_compose (s p s' p' : string) (v v' : ParameterEditor.ParamValue)
    (st : ParameterEditor.state) :
  ParameterEditor.updateParam s p v' (ParameterEditor.updateParam s p v st)
  = ParameterEditor.updateParam s p v' st
  /\ ((s, p) <> (s', p') ->
      ParameterEditor.updateParam s p v (ParameterEditor.updateParam s' p' v' st)
      = ParameterEditor.updateParam s' p' v' (ParameterEditor.updateParam s p v st)).
Proof.
  unfold ParameterEditor.updateParam. simpl. rewrite !updateSections_map. split.
  - f_equal. rewrite List.map_map. apply List.map_ext. intros section.
    unfold ParameterEditor.editSection.
    destruct (decide (ParameterEditor.section_id section = s)) as [Hs|Hs];
      repeat (first [rewrite (bool_decide_eq_true_2 _ Hs) | rewrite (bool_decide_eq_false_2 _ Hs)
                    | progress simpl]);
      try reflexivity.
    f_equal. rewrite List.map_map. apply List.map_ext. intros param.
    unfold ParameterEditor.editParam.
    destruct (decide (ParameterEditor.id param = p)) as [Hp|Hp];
      repeat (first [rewrite (bool_decide_eq_true_2 _ Hp) | rewrite (bool_decide_eq_false_2 _ Hp)
                    | progress simpl]);
      reflexivity.
  - intros Hne. f_equal. rewrite !List.map_map. apply List.map_ext. intros section.
    unfold ParameterEditor.editSection.
    destruct (decide (ParameterEditor.section_id section = s)) as [Hs|Hs];
      destruct (decide (ParameterEditor.section_id section = s')) as [Hs'|Hs'];
      repeat (first [rewrite (bool_decide_eq_true_2 _ Hs) | rewrite (bool_decide_eq_false_2 _ Hs)
                    | rewrite (bool_decide_eq_true_2 _ Hs') | rewrite (bool_decide_eq_false_2 _ Hs')
                    | progress simpl]);
      try reflexivity.
    f_equal. rewrite !List.map_map. apply List.map_ext. intros param.
    unfold ParameterEditor.editParam.
    destruct (decide (ParameterEditor.id param = p)) as [Hp|Hp];
      destruct (decide (ParameterEditor.id param = p')) as [Hp'|Hp'];
      repeat (first [rewrite (bool_decide_eq_true_2 _ Hp) | rewrite (bool_decide_eq_false_2 _ Hp)
                    | rewrite (bool_decide_eq_true_2 _ Hp') | rewrite (bool_decide_eq_false_2 _ Hp')
                    | progress simpl]);
      try reflexivity.
    exfalso. apply Hne. congruence.
Qed.
